(** * The role migration script (scripts/publisher/step1/migrate.py)

    A shallow embedding of the normalize-and-upsert pipeline: the field
    normalizer [normalize_role], the batcher [chunked], the upsert executor
    [upsert_roles] and the orchestrator [main], followed by the properties
    the specification states about them. *)

From Stdlib Require Import String Ascii ZArith NArith List Bool Lia.
From Stdlib Require Import DecimalString.
Import ListNotations.

Set Implicit Arguments.
Set Warnings "-register-all".

(** ** Python strings

    A Python [str] is a sequence of Unicode code points. *)

Definition codepoint := N.
Definition pystr := list codepoint.

(** A literal of the source text (ASCII). *)
Definition lit (s : string) : pystr := map N_of_ascii (list_ascii_of_string s).

(** [a == b] on strings. *)
Fixpoint pystr_eqb (a b : pystr) : bool :=
  match a, b with
  | [], [] => true
  | x :: a', y :: b' => (x =? y)%N && pystr_eqb a' b'
  | _, _ => false
  end.

(** [str.isspace] on one code point: the white-space table of CPython
    ([_PyUnicode_IsWhitespace]). *)
Definition isspace (c : codepoint) : bool :=
  (((0x09 <=? c) && (c <=? 0x0D)) || ((0x1C <=? c) && (c <=? 0x20))
   || (c =? 0x85) || (c =? 0xA0) || (c =? 0x1680)
   || ((0x2000 <=? c) && (c <=? 0x200A))
   || (c =? 0x2028) || (c =? 0x2029) || (c =? 0x202F) || (c =? 0x205F)
   || (c =? 0x3000))%N.

(** [s.lstrip()], [s.rstrip()] and [s.strip()] without argument. *)
Fixpoint lstrip (s : pystr) : pystr :=
  match s with
  | [] => []
  | c :: rest => if isspace c then lstrip rest else s
  end.

Definition rstrip (s : pystr) : pystr := rev (lstrip (rev s)).

Definition strip (s : pystr) : pystr := rstrip (lstrip s).

(** [sep.join(parts)] *)
Fixpoint join (sep : pystr) (parts : list pystr) : pystr :=
  match parts with
  | [] => []
  | [p] => p
  | p :: rest => p ++ sep ++ join sep rest
  end.

(** ** Python objects decoded by [json.load]

    [null], booleans, integers, floats, strings, lists and dicts.  A float
    is carried by its [repr] text (the shortest decimal text that reads
    back as the same float), which is all the script observes of it: its
    text and whether it is zero.  A dict is its items in insertion order;
    keys are distinct and a lookup reads the first binding of a key. *)

Inductive value : Type :=
| VNone
| VBool (b : bool)
| VInt (n : Z)
| VFloat (text : pystr)
| VStr (s : pystr)
| VList (items : list value)
| VDict (items : list (pystr * value)).

Definition dict := list (pystr * value).

(** [bool(v)]: the truth value of an object. *)
Definition truthy (v : value) : bool :=
  match v with
  | VNone => false
  | VBool b => b
  | VInt n => negb (n =? 0)%Z
  | VFloat t => negb (pystr_eqb t (lit "0.0") || pystr_eqb t (lit "-0.0"))
  | VStr s => match s with [] => false | _ => true end
  | VList l => match l with [] => false | _ => true end
  | VDict d => match d with [] => false | _ => true end
  end.

(** [a or b] *)
Definition py_or (a b : value) : value := if truthy a then a else b.

(** [type(v).__name__] *)
Definition type_name (v : value) : pystr :=
  match v with
  | VNone => lit "NoneType"
  | VBool _ => lit "bool"
  | VInt _ => lit "int"
  | VFloat _ => lit "float"
  | VStr _ => lit "str"
  | VList _ => lit "list"
  | VDict _ => lit "dict"
  end.

(** [str(n)] for an integer. *)
Definition str_int (n : Z) : pystr := lit (NilZero.string_of_int (Z.to_int n)).

Definition hex_digit (d : N) : codepoint :=
  (if d <? 10 then 48 + d else 87 + d)%N.

(** [width] lower-case hexadecimal digits of [c], most significant first. *)
Fixpoint hex_digits (width : nat) (c : N) : pystr :=
  match width with
  | O => []
  | S w => hex_digits w (c / 16)%N ++ [hex_digit (c mod 16)%N]
  end.

Section Repr.

(** [str.isprintable] on one code point comes from the Unicode character
    database of the interpreter; the script reaches it only through the
    [repr] of strings nested in lists and dicts. *)
Variable isprintable : codepoint -> bool.

(** [repr(s)] for a string (CPython's [unicode_repr]). *)
Definition repr_char (quote c : codepoint) : pystr :=
  (if (c =? quote) || (c =? 92) then [92; c]
   else if c =? 9 then [92; 116]
   else if c =? 10 then [92; 110]
   else if c =? 13 then [92; 114]
   else if (c <? 32) || (c =? 127) then [92; 120] ++ hex_digits 2 c
   else if c <? 127 then [c]
   else if isprintable c then [c]
   else if c <=? 0xFF then [92; 120] ++ hex_digits 2 c
   else if c <=? 0xFFFF then [92; 117] ++ hex_digits 4 c
   else [92; 85] ++ hex_digits 8 c)%N.

Definition repr_str (s : pystr) : pystr :=
  let quote : codepoint :=
    if existsb (N.eqb 39) s && negb (existsb (N.eqb 34) s) then 34%N else 39%N in
  [quote] ++ flat_map (repr_char quote) s ++ [quote].

(** [repr(v)] *)
Fixpoint py_repr (v : value) : pystr :=
  match v with
  | VNone => lit "None"
  | VBool true => lit "True"
  | VBool false => lit "False"
  | VInt n => str_int n
  | VFloat t => t
  | VStr s => repr_str s
  | VList l => lit "[" ++ join (lit ", ") (map py_repr l) ++ lit "]"
  | VDict d =>
      lit "{"
      ++ join (lit ", ")
           (map (fun kv => match kv with
                           | (k, x) => repr_str k ++ lit ": " ++ py_repr x
                           end) d)
      ++ lit "}"
  end.

(** [str(v)]: a string is itself, any other object is its [repr]. *)
Definition py_str (v : value) : pystr :=
  match v with
  | VStr s => s
  | _ => py_repr v
  end.

End Repr.

(** [d.get(key, default)] on a dict. *)
Fixpoint lookup (key : pystr) (d : dict) : option value :=
  match d with
  | [] => None
  | (k, v) :: rest => if pystr_eqb k key then Some v else lookup key rest
  end.

Definition dict_get (d : dict) (key : pystr) (default : value) : value :=
  match lookup key d with
  | Some v => v
  | None => default
  end.

(** ** Exceptions and results *)

Inductive exn_class : Type :=
| ValueError          (* with its subclasses, json.JSONDecodeError among them *)
| AttributeError
| RuntimeError
| FileNotFoundError
| OtherException.     (* any other subclass of Exception *)

(** An exception: its class and [str(exc)]. *)
Record exn : Type := Exn { exn_class_of : exn_class; exn_text : pystr }.

Inductive result (A : Type) : Type :=
| Ok (a : A)
| Raise (e : exn).

Arguments Ok {A} a.
Arguments Raise {A} e.

(** [x.get(key, default)] on an arbitrary object: only a dict has the
    method. *)
Definition no_attribute (x : value) (attr : string) : exn :=
  Exn AttributeError
      (lit "'" ++ type_name x ++ lit "' object has no attribute '" ++ lit attr ++ lit "'").

Definition py_get (x : value) (key : pystr) (default : value) : result value :=
  match x with
  | VDict d => Ok (dict_get d key default)
  | _ => Raise (no_attribute x "get")
  end.

(** [x if isinstance(x, dict) else {}] *)
Definition as_dict (x : value) : dict :=
  match x with
  | VDict d => d
  | _ => []
  end.

(** ** Field Normalizer *)

(** The flat row of the target table: the dict literal that
    [normalize_role] builds.  An optional text column is [None] for Python's
    [None]; the three JSONB columns hold the source object as found. *)
Record payload : Type := Payload {
  role_id : pystr;
  spec : option pystr;
  spec_version : option pystr;
  name : option pystr;
  description : option pystr;
  personality : option pystr;
  scenario : option pystr;
  first_mes : option pystr;
  mes_example : option pystr;
  creator : option pystr;
  character_version : option pystr;
  creator_notes : option pystr;
  system_prompt : option pystr;
  post_history_instructions : option pystr;
  alternate_greetings : value;
  character_book : value;
  tags : value;
  title : option pystr;
  summary : option pystr;
  deeplink : option pystr;
  avatar : option pystr
}.

Definition role_id_missing : exn :=
  Exn ValueError (lit "role_id is missing in data.extensions or data").

Section Normalizer.

Variable isprintable : codepoint -> bool.

Definition ensure_text (v : value) : pystr :=
  match v with
  | VNone => []
  | _ => py_str isprintable v
  end.

Definition ensure_optional_str (v : value) : option pystr :=
  match v with
  | VNone => None
  | _ =>
      let text := strip (py_str isprintable v) in
      match text with
      | [] => None           (* text or None *)
      | _ => Some text
      end
  end.

Definition normalize_role (role_wrapper : value) : result payload :=
  match role_wrapper with
  | VDict wrapper =>
      let data := as_dict (dict_get wrapper (lit "data") (VDict [])) in
      let extensions := as_dict (dict_get data (lit "extensions") (VDict [])) in
      let role_id_raw :=
        py_or (dict_get extensions (lit "role_id") VNone)
              (dict_get data (lit "role_id") VNone) in
      if negb (truthy role_id_raw) then Raise role_id_missing
      else
        let role_id := strip (py_str isprintable role_id_raw) in
        Ok {| role_id := role_id;
              spec := ensure_optional_str (dict_get wrapper (lit "spec") VNone);
              spec_version := ensure_optional_str (dict_get wrapper (lit "spec_version") VNone);
              name := ensure_optional_str (dict_get data (lit "name") VNone);
              description := ensure_optional_str (dict_get data (lit "description") VNone);
              personality := ensure_optional_str (dict_get data (lit "personality") VNone);
              scenario := ensure_optional_str (dict_get data (lit "scenario") VNone);
              first_mes := ensure_optional_str (dict_get data (lit "first_mes") VNone);
              mes_example := ensure_optional_str (dict_get data (lit "mes_example") VNone);
              creator := ensure_optional_str (dict_get data (lit "creator") VNone);
              character_version := ensure_optional_str (dict_get data (lit "character_version") VNone);
              creator_notes := ensure_optional_str (dict_get data (lit "creator_notes") VNone);
              system_prompt := ensure_optional_str (dict_get data (lit "system_prompt") VNone);
              post_history_instructions :=
                ensure_optional_str (dict_get data (lit "post_history_instructions") VNone);
              alternate_greetings := dict_get data (lit "alternate_greetings") VNone;
              character_book := dict_get data (lit "character_book") VNone;
              tags := dict_get data (lit "tags") VNone;
              title := ensure_optional_str (dict_get extensions (lit "title") VNone);
              summary := ensure_optional_str (dict_get extensions (lit "summary") VNone);
              deeplink := ensure_optional_str (dict_get extensions (lit "deeplink") VNone);
              avatar := ensure_optional_str (dict_get data (lit "avatar") VNone) |}
  | _ => Raise (no_attribute role_wrapper "get")
  end.

End Normalizer.

(** ** Batcher *)

(** [len(range(start, stop, step))] for a non-zero step. *)
Definition range_length (start stop step : Z) : nat :=
  (if 0 <? step then
     if start <? stop then Z.to_nat ((stop - start - 1) / step + 1) else 0%nat
   else
     if stop <? start then Z.to_nat ((start - stop - 1) / (- step) + 1) else 0%nat)%Z.

(** [range(start, stop, step)], which raises on a zero step. *)
Definition py_range (start stop step : Z) : result (list Z) :=
  if (step =? 0)%Z then Raise (Exn ValueError (lit "range() arg 3 must not be zero"))
  else Ok (map (fun k => (start + Z.of_nat k * step)%Z) (seq 0 (range_length start stop step))).

(** The slice [data[lo:hi]]: a negative bound counts from the end and both
    bounds are clipped to the sequence. *)
Definition slice_bound (len i : Z) : nat :=
  Z.to_nat (if (i <? 0)%Z then Z.max (i + len) 0 else Z.min i len).

Definition slice {A : Type} (data : list A) (lo hi : Z) : list A :=
  let len := Z.of_nat (length data) in
  let lo' := slice_bound len lo in
  let hi' := slice_bound len hi in
  firstn (hi' - lo') (skipn lo' data).

(** The generator is run to its end: the slices it yields are copies and the
    sequence is not changed while it is consumed. *)
Definition chunked {A : Type} (data : list A) (size : Z) : result (list (list A)) :=
  match py_range 0 (Z.of_nat (length data)) size with
  | Raise e => Raise e
  | Ok idxs => Ok (map (fun idx => slice data idx (idx + size)) idxs)
  end.

(** ** The store and the console *)

(** The handle returned by [create_client(url, key)]. *)
Record Client : Type := { supabase_url : pystr; supabase_key : pystr }.

(** The two requests the script sends,
    [client.table(t).upsert(rows, on_conflict="role_id", returning="minimal").execute()],
    with a list of rows or with one row. *)
Inductive request : Type :=
| UpsertRows (table_name : pystr) (rows : list payload)
| UpsertRow (table_name : pystr) (row : payload).

(** What a request comes back with: it returns, or raises an [Exception]. *)
Inductive reply : Type :=
| Done
| Failed (e : exn).

Definition failure := (pystr * pystr)%type.

(** One constructor for each [print] of the script, with the values it
    formats. *)
Inductive line : Type :=
| BatchWritten (written total : nat)
| BatchFailed (size : nat) (error : pystr)
| RowWritten (id : pystr)
| RowFailed (id : pystr) (error : pystr)
| LoadFailed (path : pystr) (error : pystr)
| Loaded (count : nat)
| SkippedRole (index : nat) (hint : value) (reason : pystr)
| Writable (count skipped : nat)
| SkippedDetail (hint : value) (reason : pystr)
| DryRunNotice
| ExampleHeader
| ExampleRow (first : payload)
| MigrationDone
| WrittenTotal (count : nat)
| FailedTotal (count : nat)
| FailureHeader
| FailureDetail (id : pystr) (error : pystr).

(** The parsed command line. *)
Record Namespace : Type := {
  file : pystr;
  table : pystr;
  batch_size : Z;
  dry_run : bool
}.

(** The source file as [load_roles] finds it: missing, not readable as JSON
    ([open] or [json.load] raises [e]), or decoded. *)
Inductive source_file : Type :=
| NoFile
| Unreadable (e : exn)
| Contents (content : value).

(** [os.environ] after [load_env_file]. *)
Record Environ : Type := {
  SUPABASE_URL : option pystr;
  SUPABASE_KEY : option pystr
}.

(** The exit status of the interpreter: 0 when [main] returns, 1 when an
    exception leaves it. *)
Definition exit_status (r : result unit) : Z :=
  match r with
  | Ok _ => 0
  | Raise _ => 1
  end.

Definition catches (c : exn_class) (e : exn) : bool :=
  match c, exn_class_of e with
  | ValueError, ValueError
  | AttributeError, AttributeError
  | RuntimeError, RuntimeError
  | FileNotFoundError, FileNotFoundError
  | OtherException, OtherException => true
  | _, _ => false
  end.

Definition load_roles (file_path : pystr) (f : source_file) : result (list value) :=
  match f with
  | NoFile => Raise (Exn FileNotFoundError (lit "Role library file not found: " ++ file_path))
  | Unreadable e => Raise e
  | Contents (VDict d) => Ok [VDict d]
  | Contents (VList l) => Ok l
  | Contents _ => Raise (Exn ValueError (lit "JSON file must contain a list or a single object"))
  end.

Definition credentials_error : exn :=
  Exn RuntimeError (lit "SUPABASE_URL and SUPABASE_KEY must be set in environment variables").

Definition batch_size_error : exn :=
  Exn ValueError (lit "batch-size must be a positive integer").

(** [not url or not key] holds when either variable is unset or empty.  The
    checks of [create_client] on the two texts belong to the client library
    and are left out. *)
Definition create_supabase_client (env : Environ) : result Client :=
  match SUPABASE_URL env, SUPABASE_KEY env with
  | Some (u :: url), Some (k :: key) =>
      Ok {| supabase_url := u :: url; supabase_key := k :: key |}
  | _, _ => Raise credentials_error
  end.

(** The identifier shown for a skipped role: the [except ValueError] handler
    of [main]. *)
Definition role_id_hint (role : value) : result value :=
  match role with
  | VDict wrapper =>
      match dict_get wrapper (lit "data") (VDict []) with
      | VDict data =>
          match py_get (dict_get data (lit "extensions") (VDict [])) (lit "role_id") VNone with
          | Raise e => Raise e
          | Ok ext_id =>
              Ok (py_or (py_or ext_id (dict_get data (lit "role_id") VNone))
                        (VStr (lit "UNKNOWN")))
          end
      | _ => Ok (VStr (lit "UNKNOWN"))
      end
  | _ => Ok (VStr (lit "UNKNOWN"))
  end.

(** ** Upsert Executor and Migration Orchestrator

    The script runs against a remote table and a console.  [Store] is the
    state of the remote side and [execute] its answer to one request; the
    world keeps, next to the store, the requests sent with their replies and
    the lines printed, both oldest first. *)

Section Run.

Variable isprintable : codepoint -> bool.
Variable Store : Type.
Variable execute : Client -> request -> Store -> reply * Store.

Record World : Type := {
  store : Store;
  sent : list (request * reply);
  stdout : list line
}.

(** Computations that change the world and may raise. *)
Definition M (A : Type) : Type := World -> result A * World.

Definition ret {A : Type} (a : A) : M A := fun w => (Ok a, w).

Definition raise {A : Type} (e : exn) : M A := fun w => (Raise e, w).

Definition bind {A B : Type} (m : M A) (k : A -> M B) : M B :=
  fun w =>
    match m w with
    | (Ok a, w') => k a w'
    | (Raise e, w') => (Raise e, w')
    end.

Local Notation "x <- m ;; k" := (bind m (fun x => k))
  (at level 61, m at next level, right associativity).
Local Notation "m ;;; k" := (bind m (fun _ => k))
  (at level 61, right associativity).

Definition print (l : line) : M unit :=
  fun w => (Ok tt, {| store := store w; sent := sent w; stdout := stdout w ++ [l] |}).

Fixpoint print_all (ls : list line) : M unit :=
  match ls with
  | [] => ret tt
  | l :: rest => print l ;;; print_all rest
  end.

(** One request inside [try: ... except Exception]: the reply tells the
    two branches apart. *)
Definition upsert (client : Client) (req : request) : M reply :=
  fun w =>
    let (r, s) := execute client req (store w) in
    (Ok r, {| store := s; sent := sent w ++ [(req, r)]; stdout := stdout w |}).

(** The inner loop of [upsert_roles]: [for role in batch]. *)
Fixpoint retry_rows (client : Client) (table_name : pystr) (batch : list payload)
         (success_count : nat) (failures : list failure) : M (nat * list failure) :=
  match batch with
  | [] => ret (success_count, failures)
  | role :: rest =>
      let id := role_id role in
      r <- upsert client (UpsertRow table_name role) ;;
      match r with
      | Done =>
          print (RowWritten id) ;;;
          retry_rows client table_name rest (success_count + 1) failures
      | Failed role_exc =>
          print (RowFailed id (exn_text role_exc)) ;;;
          retry_rows client table_name rest success_count
                     (failures ++ [(id, exn_text role_exc)])
      end
  end.

(** The body of the outer loop of [upsert_roles], for one batch. *)
Definition upsert_batch (client : Client) (table_name : pystr) (total : nat)
           (batch : list payload) (success_count : nat) (failures : list failure)
  : M (nat * list failure) :=
  r <- upsert client (UpsertRows table_name batch) ;;
  match r with
  | Done =>
      let success_count := (success_count + length batch)%nat in
      print (BatchWritten success_count total) ;;;
      ret (success_count, failures)
  | Failed exc =>
      print (BatchFailed (length batch) (exn_text exc)) ;;;
      retry_rows client table_name batch success_count failures
  end.

Fixpoint upsert_batches (client : Client) (table_name : pystr) (total : nat)
         (batches : list (list payload)) (success_count : nat)
         (failures : list failure) : M (nat * list failure) :=
  match batches with
  | [] => ret (success_count, failures)
  | batch :: rest =>
      acc <- upsert_batch client table_name total batch success_count failures ;;
      upsert_batches client table_name total rest (fst acc) (snd acc)
  end.

Definition upsert_roles (client : Client) (table_name : pystr) (roles : list payload)
           (batch_size : Z) : M (nat * list failure) :=
  let total := length roles in
  match chunked roles batch_size with
  | Raise e => raise e
  | Ok batches => upsert_batches client table_name total batches 0 []
  end.

(** The normalization loop of [main]:
    [for index, role in enumerate(roles, start=1)]. *)
Fixpoint normalize_all (index : nat) (roles : list value)
         (normalized_roles : list payload) (skipped : list (value * pystr))
  : M (list payload * list (value * pystr)) :=
  match roles with
  | [] => ret (normalized_roles, skipped)
  | role :: rest =>
      match normalize_role isprintable role with
      | Ok row => normalize_all (S index) rest (normalized_roles ++ [row]) skipped
      | Raise exc =>
          if catches ValueError exc then
            match role_id_hint role with
            | Raise e => raise e
            | Ok hint =>
                print (SkippedRole index hint (exn_text exc)) ;;;
                normalize_all (S index) rest normalized_roles
                              (skipped ++ [(hint, exn_text exc)])
            end
          else raise exc
      end
  end.

(** [main], after [load_env_file] and [parse_args]: [env] is the environment
    they leave and [args] the parsed command line; [f] is what the file
    system holds at [args.file]. *)
Definition main (args : Namespace) (f : source_file) (env : Environ) : M unit :=
  if (batch_size args <=? 0)%Z
  then raise batch_size_error
  else
    match load_roles (file args) f with
    | Raise e => print (LoadFailed (file args) (exn_text e))
    | Ok roles =>
        print (Loaded (length roles)) ;;;
        lists <- normalize_all 1 roles [] [] ;;
        let (normalized_roles, skipped) := lists in
        print (Writable (length normalized_roles) (length skipped)) ;;;
        print_all (map (fun s => SkippedDetail (fst s) (snd s)) skipped) ;;;
        if dry_run args then
          print DryRunNotice ;;;
          match normalized_roles with
          | first :: _ => print ExampleHeader ;;; print (ExampleRow first)
          | [] => ret tt
          end
        else
          match create_supabase_client env with
          | Raise e => raise e
          | Ok client =>
              outcome <- upsert_roles client (table args) normalized_roles
                                      (batch_size args) ;;
              let (success_count, failures) := outcome in
              print MigrationDone ;;;
              print (WrittenTotal success_count) ;;;
              print (FailedTotal (length failures)) ;;;
              match failures with
              | [] => ret tt
              | _ =>
                  print FailureHeader ;;;
                  print_all (map (fun x => FailureDetail (fst x) (snd x)) failures)
              end
          end
    end.

End Run.

(** ** The vocabulary of the specification *)

(** The object reached from [v] by following [path] through nested dicts;
    nothing is reached through a missing key or through an object that is
    not a dict. *)
Fixpoint at_path (v : value) (path : list pystr) : option value :=
  match path with
  | [] => Some v
  | key :: rest =>
      match v with
      | VDict d =>
          match lookup key d with
          | Some x => at_path x rest
          | None => None
          end
      | _ => None
      end
  end.

(** What [d.get(key)] returns for the object found, or not found, at a
    path: [None] stands for a missing key. *)
Definition or_none (o : option value) : value :=
  match o with
  | Some v => v
  | None => VNone
  end.

(** The chunk number [k] of [data] cut in pieces of [n]. *)
Definition window {A : Type} (n : nat) (data : list A) (k : nat) : list A :=
  firstn n (skipn (k * n) data).

(** A location holds a usable value when the key is there and its value is
    truthy. *)
Definition usable (x : option value) : bool :=
  match x with
  | Some v => truthy v
  | None => false
  end.

Definition extensions_role_id (raw : value) : option value :=
  at_path raw [lit "data"; lit "extensions"; lit "role_id"].

Definition data_role_id (raw : value) : option value :=
  at_path raw [lit "data"; lit "role_id"].

(** The resolved identifier: [data.extensions.role_id] when usable, else
    [data.role_id] when usable. *)
Definition resolved_role_id (raw : value) : option value :=
  if usable (extensions_role_id raw) then extensions_role_id raw
  else if usable (data_role_id raw) then data_role_id raw
  else None.

(** The optional text columns with the source path of each. *)
Definition optional_columns : list (list pystr * (payload -> option pystr)) :=
  [ ([lit "spec"], spec);
    ([lit "spec_version"], spec_version);
    ([lit "data"; lit "name"], name);
    ([lit "data"; lit "description"], description);
    ([lit "data"; lit "personality"], personality);
    ([lit "data"; lit "scenario"], scenario);
    ([lit "data"; lit "first_mes"], first_mes);
    ([lit "data"; lit "mes_example"], mes_example);
    ([lit "data"; lit "creator"], creator);
    ([lit "data"; lit "character_version"], character_version);
    ([lit "data"; lit "creator_notes"], creator_notes);
    ([lit "data"; lit "system_prompt"], system_prompt);
    ([lit "data"; lit "post_history_instructions"], post_history_instructions);
    ([lit "data"; lit "extensions"; lit "title"], title);
    ([lit "data"; lit "extensions"; lit "summary"], summary);
    ([lit "data"; lit "extensions"; lit "deeplink"], deeplink);
    ([lit "data"; lit "avatar"], avatar) ].

(** A text is trimmed when neither its first nor its last code point is
    white space. *)
Definition trimmed (t : pystr) : Prop :=
  (forall c rest, t = c :: rest -> isspace c = false) /\
  (forall front c, t = front ++ [c] -> isspace c = false).

(** The absent marker for an empty text. *)
Definition nonempty (t : pystr) : option pystr :=
  match t with
  | [] => None
  | _ => Some t
  end.

(** The rule of the optional text columns, for one source value [src] (or no
    value when the path is absent) and the column [out] made from it. *)
Definition optional_text_rule (isprintable : codepoint -> bool)
           (src : option value) (out : option pystr) : Prop :=
  (src = None \/ src = Some VNone -> out = None) /\
  (forall v, src = Some v -> v <> VNone -> out = nonempty (strip (py_str isprintable v))) /\
  (forall t, out = Some t -> t <> [] /\ trimmed t) /\
  (forall s, src = Some (VStr s) -> forallb isspace s = true -> out = None).

(** An environment variable is unset when it is absent or empty, and the
    store credentials are missing when either variable is unset. *)
Definition unset (x : option pystr) : Prop := x = None \/ x = Some [].

Definition credentials_missing (env : Environ) : Prop :=
  unset (SUPABASE_URL env) \/ unset (SUPABASE_KEY env).

(** The world after the lines [ls] were printed. *)
Definition printed {Store : Type} (w : World Store) (ls : list line) : World Store :=
  {| store := store w; sent := sent w; stdout := stdout w ++ ls |}.

(** How many of the replies are successes, and the failure entries of a
    batch retried row by row with these replies. *)
Definition accepted (replies : list reply) : nat :=
  length (filter (fun r => match r with Done => true | Failed _ => false end) replies).

Fixpoint failure_entries (batch : list payload) (replies : list reply) : list failure :=
  match batch, replies with
  | role :: batch', Failed e :: replies' =>
      (role_id role, exn_text e) :: failure_entries batch' replies'
  | _ :: batch', Done :: replies' => failure_entries batch' replies'
  | _, _ => []
  end.

(** ** Concrete inputs *)

(** The printable test of the ASCII range, for examples whose texts are
    ASCII. *)
Definition isprintable_ascii (c : codepoint) : bool := ((32 <=? c) && (c <? 127))%N.

Definition wrap_extensions (ext : dict) : value :=
  VDict [(lit "spec", VStr (lit "chara_card_v2"));
         (lit "data", VDict [(lit "name", VStr (lit " Ann ")); (lit "extensions", VDict ext)])].

(** [{"spec": .., "data": {"name": " Ann ", "extensions": {"role_id": " a "}}}] *)
Definition raw_padded : value := wrap_extensions [(lit "role_id", VStr (lit " a "))].

(** [{"data": {"extensions": {}, "role_id": "r7 ", "title": ..}}]: the
    identifier is found under [data] only. *)
Definition raw_fallback : value :=
  VDict [(lit "data", VDict [(lit "extensions", VDict []);
                             (lit "role_id", VStr (lit "r7 "))])].

(** [{.., "data": {.., "extensions": {"role_id": " "}}}] *)
Definition raw_blank_id : value := wrap_extensions [(lit "role_id", VStr (lit " "))].

(** [{"data": {"extensions": null}}] *)
Definition raw_null_extensions : value :=
  VDict [(lit "data", VDict [(lit "extensions", VNone)])].

(** [{.., "data": {.., "extensions": {"role_id": "r1", "title": "  "}}}] *)
Definition raw_plain : value :=
  wrap_extensions [(lit "role_id", VStr (lit "r1")); (lit "title", VStr (lit "  "))].

Definition row (id : string) (nm : option pystr) : payload :=
  {| role_id := lit id; spec := None; spec_version := None; name := nm;
     description := None; personality := None; scenario := None; first_mes := None;
     mes_example := None; creator := None; character_version := None;
     creator_notes := None; system_prompt := None; post_history_instructions := None;
     alternate_greetings := VNone; character_book := VNone; tags := VNone;
     title := None; summary := None; deeplink := None; avatar := None |}.

Definition five_rows : list payload :=
  [row "r1" (Some (lit "Ann")); row "r2" (Some (lit "Bob")); row "r3" None;
   row "r4" (Some (lit "Dan")); row "r5" (Some (lit "Eve"))].

(** A table whose column [name] is declared not null: a request with a row
    that has no name is refused as a whole, any other request replaces the
    rows of the same [role_id]. *)
Definition table_store := list payload.

Definition rows_of (req : request) : list payload :=
  match req with
  | UpsertRows _ rows => rows
  | UpsertRow _ r => [r]
  end.

Definition has_name (r : payload) : bool :=
  match name r with
  | Some _ => true
  | None => false
  end.

Definition table_execute (_ : Client) (req : request) (t : table_store)
  : reply * table_store :=
  let rows := rows_of req in
  if forallb has_name rows
  then (Done,
        filter (fun old => negb (existsb (fun r => pystr_eqb (role_id r) (role_id old)) rows)) t
        ++ rows)
  else (Failed (Exn OtherException (lit "null value in column name")), t).

Definition sample_client : Client :=
  {| supabase_url := lit "https://db.example"; supabase_key := lit "key" |}.

Definition sample_env : Environ :=
  {| SUPABASE_URL := Some (lit "https://db.example"); SUPABASE_KEY := Some (lit "key") |}.

Definition empty_env : Environ := {| SUPABASE_URL := None; SUPABASE_KEY := None |}.

Definition sample_args : Namespace :=
  {| file := lit "character_v2.json"; table := lit "role_data";
     batch_size := 2; dry_run := false |}.

Definition zero_batch_args : Namespace :=
  {| file := lit "character_v2.json"; table := lit "role_data";
     batch_size := 0; dry_run := false |}.

Definition empty_world : World table_store := {| store := []; sent := []; stdout := [] |}.

(** ** The card converter (convert_results_to_character_v2.py) *)

(** [build_v2_card(raw)]: the card built from one source role. *)
Definition build_v2_card (raw : value) : result value :=
  match raw with
  | VDict r =>
      Ok (VDict
            [(lit "spec", VStr (lit "chara_card_v2"));
             (lit "spec_version", VStr (lit "2.0"));
             (lit "data",
              VDict
                [(lit "name", VStr []);
                 (lit "description", VStr []);
                 (lit "personality", VStr []);
                 (lit "scenario", VStr []);
                 (lit "first_mes", py_or (dict_get r (lit "first_sentence") VNone) (VStr []));
                 (lit "mes_example", VStr []);
                 (lit "system_prompt",
                  py_or (dict_get r (lit "module_1_result") VNone) (VStr []));
                 (lit "post_history_instructions", VStr []);
                 (lit "alternate_greetings", VList []);
                 (lit "character_book", VNone);
                 (lit "tags", py_or (dict_get r (lit "tag") VNone) (VList []));
                 (lit "extensions",
                  VDict
                    [(lit "title", py_or (dict_get r (lit "name") VNone) (VStr []));
                     (lit "role_id", dict_get r (lit "role_id") VNone);
                     (lit "summary", py_or (dict_get r (lit "summary") VNone) (VStr []));
                     (lit "deeplink",
                      py_or (dict_get r (lit "deeplink") VNone) (VStr []))])])])
  | _ => Raise (no_attribute raw "get")
  end.

(** [[build_v2_card(item) for item in payload]] *)
Fixpoint build_cards (payload : list value) : result (list value) :=
  match payload with
  | [] => Ok []
  | item :: rest =>
      match build_v2_card item with
      | Raise e => Raise e
      | Ok card =>
          match build_cards rest with
          | Raise e => Raise e
          | Ok cards => Ok (card :: cards)
          end
      end
  end.

(** [main] of the converter, from the decoded source file to the list that
    is written out. *)
Definition convert_main (payload : value) : result (list value) :=
  match payload with
  | VList items => build_cards items
  | _ => Raise (Exn ValueError (lit "Expected the source JSON to be a list of roles."))
  end.

(** ** The deeplink script (add_deeplink.py) *)

(** [d[key] = v]: the value of a key that is there is replaced where it
    stands, a new key goes last. *)
Fixpoint dict_set (d : dict) (key : pystr) (v : value) : dict :=
  match d with
  | [] => [(key, v)]
  | (k, x) :: rest =>
      if pystr_eqb k key then (k, v) :: rest else (k, x) :: dict_set rest key v
  end.

(** [key in d] *)
Definition dict_has (d : dict) (key : pystr) : bool :=
  match lookup key d with
  | Some _ => true
  | None => false
  end.

(** [v != s] for a string [s]: only the same string is equal to it. *)
Definition differs_from (v : value) (s : pystr) : bool :=
  match v with
  | VStr t => negb (pystr_eqb t s)
  | _ => true
  end.

(** [f"https://t.me/{bot_username}?start=role_{role_id}"] *)
Definition deeplink_of (bot_username role_id : pystr) : pystr :=
  lit "https://t.me/" ++ bot_username ++ lit "?start=role_" ++ role_id.

(** The role after [extensions[key] = v], where [extensions] is the object
    held at [role["data"]["extensions"]] and [ext] its items after the
    assignment. *)
Definition with_extensions (role : value) (ext : dict) : value :=
  match role with
  | VDict r =>
      match lookup (lit "data") r with
      | Some (VDict data) =>
          VDict (dict_set r (lit "data")
                          (VDict (dict_set data (lit "extensions") (VDict ext))))
      | _ => role
      end
  | _ => role
  end.

Section Deeplink.

Variable isprintable : codepoint -> bool.

Definition extract_role_id_and_extensions (role : value)
  : result (option pystr * option dict) :=
  match py_get role (lit "data") VNone with
  | Raise e => Raise e
  | Ok (VDict data) =>
      match dict_get data (lit "extensions") VNone with
      | VDict extensions =>
          match dict_get extensions (lit "role_id") VNone with
          | VNone => Ok (None, Some extensions)
          | role_id => Ok (Some (py_str isprintable role_id), Some extensions)
          end
      | _ => Ok (None, None)
      end
  | Ok _ => Ok (None, None)
  end.

(** The body of the loop of [count_roles_without_deeplink]: whether the
    role is counted.  Where the role itself is looked into, it is a dict,
    [extract_role_id_and_extensions] having returned. *)
Definition counts_as_missing (role : value) : result bool :=
  match extract_role_id_and_extensions role with
  | Raise e => Raise e
  | Ok (Some _, extensions) =>
      Ok (match extensions with
          | None | Some [] => true
          | Some ext => negb (truthy (dict_get ext (lit "deeplink") VNone))
          end)
  | Ok (None, _) => Ok (negb (dict_has (as_dict role) (lit "deeplink")))
  end.

Fixpoint count_roles_loop (roles : list value) (missing_count : nat) : result nat :=
  match roles with
  | [] => Ok missing_count
  | role :: rest =>
      match counts_as_missing role with
      | Raise e => Raise e
      | Ok true => count_roles_loop rest (missing_count + 1)
      | Ok false => count_roles_loop rest missing_count
      end
  end.

Definition count_roles_without_deeplink (roles : list value) : result nat :=
  count_roles_loop roles 0.

(** The body of the loop of [ensure_deeplink_field]: the role as the loop
    leaves it, and whether it was updated. *)
Definition ensure_deeplink_role (bot_username : pystr) (role : value)
  : result (value * bool) :=
  match extract_role_id_and_extensions role with
  | Raise e => Raise e
  | Ok (Some role_id, Some extensions) =>
      let deeplink := deeplink_of bot_username role_id in
      if differs_from (dict_get extensions (lit "deeplink") VNone) deeplink
      then Ok (with_extensions role (dict_set extensions (lit "deeplink") (VStr deeplink)),
               true)
      else Ok (role, false)
  | Ok _ =>
      let r := as_dict role in
      let role_id := dict_get r (lit "role_id") VNone in
      if negb (truthy role_id) then Ok (role, false)
      else
        let deeplink := deeplink_of bot_username (py_str isprintable role_id) in
        if differs_from (dict_get r (lit "deeplink") VNone) deeplink
        then Ok (VDict (dict_set r (lit "deeplink") (VStr deeplink)), true)
        else Ok (role, false)
  end.

(** The roles are changed in place: the list returned is the list after the
    call. *)
Fixpoint ensure_deeplink_loop (bot_username : pystr) (roles : list value)
         (updated_count : nat) : result (list value * nat) :=
  match roles with
  | [] => Ok ([], updated_count)
  | role :: rest =>
      match ensure_deeplink_role bot_username role with
      | Raise e => Raise e
      | Ok (role', updated) =>
          match ensure_deeplink_loop bot_username rest
                                     (if updated then updated_count + 1 else updated_count)
          with
          | Raise e => Raise e
          | Ok (rest', n) => Ok (role' :: rest', n)
          end
      end
  end.

Definition ensure_deeplink_field (roles : list value) (bot_username : pystr)
  : result (list value * nat) :=
  ensure_deeplink_loop bot_username roles 0.

End Deeplink.

(** A role has no identifier for the deeplink script when there is no
    non-null [data.extensions.role_id] and no truthy top-level [role_id]. *)
Definition no_identifier (role : value) : bool :=
  match at_path role [lit "data"; lit "extensions"; lit "role_id"] with
  | Some VNone | None => negb (usable (at_path role [lit "role_id"]))
  | Some _ => false
  end.

(** The two ways through the body of the loop of [ensure_deeplink_field],
    for a role that is the dict [r]: with the identifier [id] found in the
    extensions [ext], and with the top-level [role_id]. *)
Definition nested_step (bot : pystr) (r : dict) (id : pystr) (ext : dict) : value * bool :=
  if differs_from (dict_get ext (lit "deeplink") VNone) (deeplink_of bot id)
  then (with_extensions (VDict r)
                        (dict_set ext (lit "deeplink") (VStr (deeplink_of bot id))), true)
  else (VDict r, false).

Definition flat_step (isprintable : codepoint -> bool) (bot : pystr) (r : dict)
  : value * bool :=
  let role_id := dict_get r (lit "role_id") VNone in
  if negb (truthy role_id) then (VDict r, false)
  else
    let deeplink := deeplink_of bot (py_str isprintable role_id) in
    if differs_from (dict_get r (lit "deeplink") VNone) deeplink
    then (VDict (dict_set r (lit "deeplink") (VStr deeplink)), true)
    else (VDict r, false).

(** What the deeplink script still counts as missing after it has run: a
    role without identifier and without a top-level [deeplink] key. *)
Definition left_without_deeplink (role : value) : bool :=
  match role with
  | VDict r => no_identifier (VDict r) && negb (dict_has r (lit "deeplink"))
  | _ => false
  end.

(** A role of the flat kind, and a card whose extensions hold an old
    deeplink. *)
Definition flat_role : value := VDict [(lit "role_id", VStr (lit "r2"))].

Definition linked_card : value :=
  wrap_extensions [(lit "role_id", VInt 7); (lit "deeplink", VStr (lit "old"))].

(** ** Further vocabulary *)

(** A raw record is well shaped when it is an object and, where its [data]
    is an object that holds the key [extensions], the value of that key is
    an object too. *)
Definition well_shaped (role : value) : bool :=
  match role with
  | VDict wrapper =>
      match lookup (lit "data") wrapper with
      | Some (VDict data) =>
          match lookup (lit "extensions") data with
          | Some (VDict _) | None => true
          | Some _ => false
          end
      | _ => true
      end
  | _ => false
  end.

(** The rows of the records that normalize, in the order of the records. *)
Definition successes (isprintable : codepoint -> bool) (roles : list value) : list payload :=
  flat_map (fun role => match normalize_role isprintable role with
                        | Ok p => [p]
                        | Raise _ => []
                        end) roles.

(** The entry of the skipped list for a record without identifier. *)
Definition unknown_skip : value * pystr :=
  (VStr (lit "UNKNOWN"), exn_text role_id_missing).

(** [a] is [b] with some elements left out, the order kept. *)
Inductive subseq {A : Type} : list A -> list A -> Prop :=
| subseq_nil : subseq [] []
| subseq_skip (x : A) (a b : list A) : subseq a b -> subseq a (x :: b)
| subseq_take (x : A) (a b : list A) : subseq a b -> subseq (x :: a) (x :: b).

(** What a trace of requests and replies says: the rows that went out in
    requests for whole batches, the number of rows written, and the failure
    entries of the rows refused one by one. *)
Definition trace := list (request * reply).

Definition rows_in_batches (t : trace) : list payload :=
  flat_map (fun e => match e with
                     | (UpsertRows _ rows, _) => rows
                     | (UpsertRow _ _, _) => []
                     end) t.

Definition batch_requests (t : trace) : nat :=
  length (filter (fun e => match e with
                           | (UpsertRows _ _, _) => true
                           | (UpsertRow _ _, _) => false
                           end) t).

Definition written_in (t : trace) : nat :=
  list_sum (map (fun e => match e with
                          | (UpsertRows _ rows, Done) => length rows
                          | (UpsertRow _ _, Done) => 1
                          | (_, Failed _) => 0
                          end) t).

Definition failures_in (t : trace) : list failure :=
  flat_map (fun e => match e with
                     | (UpsertRow _ r, Failed x) => [(role_id r, exn_text x)]
                     | _ => []
                     end) t.

(** [{"data": {"role_id": 12, "tags": ["fox", 7], "character_book": null}}] *)
Definition raw_tagged : value :=
  VDict [(lit "data", VDict [(lit "role_id", VInt 12);
                             (lit "tags", VList [VStr (lit "fox"); VInt 7]);
                             (lit "character_book", VNone)])].

(** [{"data": {"name": "Cy", "role_id": ""}}] *)
Definition raw_no_id : value :=
  VDict [(lit "data", VDict [(lit "name", VStr (lit "Cy")); (lit "role_id", VStr [])])].

(** A source role of the converter:
    [{"role_id": 7, "name": " Fox ", "first_sentence": "Hi", "tag": ["a"]}] *)
Definition source_role : value :=
  VDict [(lit "role_id", VInt 7); (lit "name", VStr (lit " Fox "));
         (lit "first_sentence", VStr (lit "Hi")); (lit "tag", VList [VStr (lit "a")])].

(** A store that accepts every request. *)
Definition accept_all (_ : Client) (_ : request) (s : unit) : reply * unit := (Done, s).

Definition unit_world : World unit := {| store := tt; sent := []; stdout := [] |}.

Definition dry_run_args : Namespace :=
  {| file := lit "character_v2.json"; table := lit "role_data";
     batch_size := 2; dry_run := true |}.

(** * Properties *)

Unset Implicit Arguments.

(** ** White space *)

Lemma lstrip_spaces (s : pystr) : forallb isspace s = true -> lstrip s = [].
Proof.
  induction s as [|c s IH]; simpl; [reflexivity|].
  intros H. apply andb_prop in H as [Hc Hs]. rewrite Hc. auto.
Qed.

Lemma lstrip_head (s : pystr) (c : codepoint) (rest : pystr) :
  lstrip s = c :: rest -> isspace c = false.
Proof.
  induction s as [|a s IH]; simpl; [discriminate|].
  destruct (isspace a) eqn:Ha; [exact IH|].
  intros H. injection H as -> _. exact Ha.
Qed.

Lemma lstrip_suffix (s : pystr) : exists front, s = front ++ lstrip s.
Proof.
  induction s as [|a s [front IH]]; simpl.
  - exists []. reflexivity.
  - destruct (isspace a).
    + exists (a :: front). simpl. f_equal. exact IH.
    + exists []. reflexivity.
Qed.

Lemma rstrip_prefix (s : pystr) : exists back, s = rstrip s ++ back.
Proof.
  unfold rstrip. destruct (lstrip_suffix (rev s)) as [front H].
  exists (rev front).
  rewrite <- rev_app_distr, <- H. symmetry. apply rev_involutive.
Qed.

Lemma rstrip_last (s front : pystr) (c : codepoint) :
  rstrip s = front ++ [c] -> isspace c = false.
Proof.
  unfold rstrip. intros H.
  apply (f_equal (@rev codepoint)) in H.
  rewrite rev_involutive, rev_app_distr in H. simpl in H.
  exact (lstrip_head _ _ _ H).
Qed.

Lemma strip_spaces (s : pystr) : forallb isspace s = true -> strip s = [].
Proof. intros H. unfold strip. rewrite (lstrip_spaces s H). reflexivity. Qed.

Lemma strip_trimmed (s : pystr) : trimmed (strip s).
Proof.
  unfold strip. split.
  - intros c rest H.
    destruct (rstrip_prefix (lstrip s)) as [back Hb].
    rewrite H in Hb. simpl in Hb. exact (lstrip_head _ _ _ Hb).
  - intros front c H. exact (rstrip_last _ _ _ H).
Qed.

(** ** Field Normalizer *)

Lemma truthy_or_none (o : option value) : truthy (or_none o) = usable o.
Proof. destruct o; reflexivity. Qed.

Section NormalizerFacts.

Variable isprintable : codepoint -> bool.
Variable wrapper : dict.

Let data : dict := as_dict (dict_get wrapper (lit "data") (VDict [])).
Let extensions : dict := as_dict (dict_get data (lit "extensions") (VDict [])).

Lemma top_get (key : pystr) :
  dict_get wrapper key VNone = or_none (at_path (VDict wrapper) [key]).
Proof.
  unfold dict_get. cbn [at_path]. destruct (lookup key wrapper); reflexivity.
Qed.

Lemma at_data (path : list pystr) (key : pystr) :
  at_path (VDict wrapper) (lit "data" :: key :: path)
  = match lookup key data with
    | Some x => at_path x path
    | None => None
    end.
Proof.
  subst data. unfold dict_get. cbn [at_path].
  destruct (lookup (lit "data") wrapper) as [x|]; [|reflexivity].
  destruct x; reflexivity.
Qed.

Lemma data_get (key : pystr) :
  dict_get data key VNone = or_none (at_path (VDict wrapper) [lit "data"; key]).
Proof.
  rewrite at_data. unfold dict_get. destruct (lookup key data); reflexivity.
Qed.

Lemma extensions_get (key : pystr) :
  dict_get extensions key VNone
  = or_none (at_path (VDict wrapper) [lit "data"; lit "extensions"; key]).
Proof.
  rewrite at_data. subst extensions. unfold dict_get.
  destruct (lookup (lit "extensions") data) as [x|]; [|reflexivity].
  destruct x; try reflexivity.
  cbn [at_path as_dict]. destruct (lookup key items); reflexivity.
Qed.

(** The identifier that [normalize_role] resolves is the one the
    specification describes. *)
Lemma role_id_raw_resolved :
  let role_id_raw :=
    py_or (dict_get extensions (lit "role_id") VNone)
          (dict_get data (lit "role_id") VNone) in
  match resolved_role_id (VDict wrapper) with
  | Some v => role_id_raw = v /\ truthy v = true
  | None => truthy role_id_raw = false
  end.
Proof.
  cbv zeta. rewrite extensions_get, data_get.
  unfold resolved_role_id, extensions_role_id, data_role_id, py_or.
  rewrite truthy_or_none.
  destruct (usable (at_path (VDict wrapper) [lit "data"; lit "extensions"; lit "role_id"]))
    eqn:He.
  - destruct (at_path (VDict wrapper) [lit "data"; lit "extensions"; lit "role_id"]);
      [split; [reflexivity | exact He] | discriminate].
  - rewrite <- truthy_or_none.
    destruct (at_path (VDict wrapper) [lit "data"; lit "role_id"]) as [d|]; simpl.
    + destruct (truthy d) eqn:Hd; [split; [reflexivity | exact Hd] | reflexivity].
    + reflexivity.
Qed.

Lemma normalize_role_resolved :
  match resolved_role_id (VDict wrapper) with
  | Some v =>
      exists p, normalize_role isprintable (VDict wrapper) = Ok p
                /\ role_id p = strip (py_str isprintable v)
  | None => normalize_role isprintable (VDict wrapper) = Raise role_id_missing
  end.
Proof.
  pose proof role_id_raw_resolved as H. cbv zeta in H.
  unfold normalize_role. fold data. fold extensions.
  destruct (resolved_role_id (VDict wrapper)) as [v|].
  - destruct H as [-> Hv]. rewrite Hv. simpl negb. cbv iota.
    eexists. split; reflexivity.
  - rewrite H. reflexivity.
Qed.

Lemma ensure_optional_rule (src : option value) :
  optional_text_rule isprintable src (ensure_optional_str isprintable (or_none src)).
Proof.
  assert (Hnon : forall v, v <> VNone ->
            ensure_optional_str isprintable v = nonempty (strip (py_str isprintable v))).
  { intros v Hv. destruct v; try reflexivity. contradiction. }
  assert (Hout : forall v t, ensure_optional_str isprintable v = Some t ->
            t <> [] /\ trimmed t).
  { intros v t. destruct v; try discriminate;
      rewrite Hnon by discriminate;
      (destruct (strip _) eqn:Hs; simpl; [discriminate|]);
      intros Ht; injection Ht as <-; (split; [discriminate|]);
      rewrite <- Hs; apply strip_trimmed. }
  repeat split.
  - intros [-> | ->]; reflexivity.
  - intros v -> Hv. simpl. apply Hnon, Hv.
  - apply (Hout _ _ H).
  - apply (proj1 (proj2 (Hout _ _ H))).
  - apply (proj2 (proj2 (Hout _ _ H))).
  - intros s -> Hs. simpl. rewrite (strip_spaces s Hs). reflexivity.
Qed.

(** C4. Every optional text column of a normalized record follows the
    optional-string rule: a source value that is absent or [None] gives
    the absent marker; any other source value is stringified and trimmed,
    and an empty result gives the absent marker, never an empty text; a
    column that is set is a non-empty trimmed text; a source string made
    of white space only gives the absent marker. *)
Theorem optional_text_columns (p : payload) :
  normalize_role isprintable (VDict wrapper) = Ok p ->
  Forall (fun col => optional_text_rule isprintable
                       (at_path (VDict wrapper) (fst col)) (snd col p))
         optional_columns.
Proof.
  unfold normalize_role. fold data. fold extensions.
  destruct (negb _); [discriminate|].
  intros H. injection H as <-.
  unfold optional_columns.
  repeat (apply Forall_cons; [cbn [fst snd role_id spec spec_version name description
    personality scenario first_mes mes_example creator character_version creator_notes
    system_prompt post_history_instructions title summary deeplink avatar];
    rewrite ?top_get, ?data_get, ?extensions_get; apply ensure_optional_rule|]).
  apply Forall_nil.
Qed.

End NormalizerFacts.

(** C1 (amended). When the resolved [role_id] is a string, the identifier of
    the normalized record is that string with its leading and trailing
    white space stripped. *)
Theorem role_id_is_stripped (isprintable : codepoint -> bool) (wrapper : dict) (s : pystr) :
  resolved_role_id (VDict wrapper) = Some (VStr s) ->
  exists p, normalize_role isprintable (VDict wrapper) = Ok p /\ role_id p = strip s.
Proof.
  intros H. pose proof (normalize_role_resolved isprintable wrapper) as R.
  rewrite H in R. exact R.
Qed.

Lemma role_id_is_stripped_witness :
  resolved_role_id raw_padded = Some (VStr (lit " a ")) /\
  exists p, normalize_role isprintable_ascii raw_padded = Ok p
            /\ role_id p = strip (lit " a ").
Proof.
  split; [reflexivity|].
  apply (role_id_is_stripped isprintable_ascii
           [(lit "spec", VStr (lit "chara_card_v2"));
            (lit "data", VDict [(lit "name", VStr (lit " Ann "));
                                (lit "extensions", VDict [(lit "role_id", VStr (lit " a "))])])]
           (lit " a ")).
  reflexivity.
Defined.

(** The identifier [" a "] does not keep its white space: it becomes ["a"]. *)
Lemma role_id_whitespace_not_preserved :
  resolved_role_id raw_padded = Some (VStr (lit " a ")) /\
  exists p, normalize_role isprintable_ascii raw_padded = Ok p
            /\ role_id p = lit "a"
            /\ role_id p <> py_str isprintable_ascii (VStr (lit " a ")).
Proof.
  split; [reflexivity|]. eexists. split; [reflexivity|].
  split; [reflexivity | discriminate].
Qed.

(** C2 (the code at the failing input). A [role_id] made of white space only
    is truthy, so [normalize_role] returns a record, whose identifier is the
    empty text. *)
Theorem blank_role_id_accepted (isprintable : codepoint -> bool) :
  resolved_role_id raw_blank_id = Some (VStr (lit " ")) /\
  exists p, normalize_role isprintable raw_blank_id = Ok p /\ role_id p = [].
Proof.
  split; [reflexivity|]. eexists. split; reflexivity.
Qed.

(** C3 (amended). For a raw record, [normalize_role] raises the missing
    identifier error exactly when neither [data.extensions.role_id] nor
    [data.role_id] holds a usable value; when either does, it returns a
    record whose identifier is the string form of the resolved value with
    leading and trailing white space stripped. *)
Theorem normalize_role_identity (isprintable : codepoint -> bool) (wrapper : dict) :
  let raw := VDict wrapper in
  (normalize_role isprintable raw = Raise role_id_missing <->
   usable (extensions_role_id raw) = false /\ usable (data_role_id raw) = false) /\
  (usable (extensions_role_id raw) = true \/ usable (data_role_id raw) = true ->
   exists v p, resolved_role_id raw = Some v
               /\ normalize_role isprintable raw = Ok p
               /\ role_id p = strip (py_str isprintable v)).
Proof.
  cbv zeta. pose proof (normalize_role_resolved isprintable wrapper) as R.
  unfold resolved_role_id in *.
  destruct (usable (extensions_role_id (VDict wrapper))) eqn:He.
  - destruct (extensions_role_id (VDict wrapper)) as [v|]; [|discriminate].
    destruct R as [p [Hp Hid]]. split.
    + split; [rewrite Hp; discriminate | intros [H _]; discriminate].
    + intros _. exists v, p. auto.
  - destruct (usable (data_role_id (VDict wrapper))) eqn:Hd.
    + destruct (data_role_id (VDict wrapper)) as [v|]; [|discriminate].
      destruct R as [p [Hp Hid]]. split.
      * split; [rewrite Hp; discriminate | intros [_ H]; discriminate].
      * intros _. exists v, p. auto.
    + split; [split; auto | intros [H | H]; discriminate].
Qed.

Lemma normalize_role_identity_witness :
  usable (data_role_id raw_fallback) = true /\
  exists v p, resolved_role_id raw_fallback = Some v
              /\ normalize_role isprintable_ascii raw_fallback = Ok p
              /\ role_id p = strip (py_str isprintable_ascii v).
Proof.
  split; [reflexivity|].
  apply (proj2 (normalize_role_identity isprintable_ascii
                  [(lit "data", VDict [(lit "extensions", VDict []);
                                       (lit "role_id", VStr (lit "r7 "))])])).
  right. reflexivity.
Defined.

(** [data.role_id] holds the truthy ["r7 "], and the identifier is ["r7"],
    not the string form of the resolved value. *)
Lemma identifier_differs_from_resolved_text :
  usable (data_role_id raw_fallback) = true /\
  resolved_role_id raw_fallback = Some (VStr (lit "r7 ")) /\
  exists p, normalize_role isprintable_ascii raw_fallback = Ok p
            /\ role_id p <> py_str isprintable_ascii (VStr (lit "r7 ")).
Proof.
  split; [reflexivity|]. split; [reflexivity|].
  eexists. split; [reflexivity | discriminate].
Qed.

Lemma optional_text_columns_witness :
  exists p, normalize_role isprintable_ascii raw_plain = Ok p
            /\ name p = Some (lit "Ann") /\ title p = None
            /\ Forall (fun col => optional_text_rule isprintable_ascii
                                    (at_path raw_plain (fst col)) (snd col p))
                      optional_columns.
Proof.
  eexists. split; [reflexivity|]. split; [reflexivity|]. split; [reflexivity|].
  apply (optional_text_columns isprintable_ascii
           [(lit "spec", VStr (lit "chara_card_v2"));
            (lit "data", VDict [(lit "name", VStr (lit " Ann "));
                                (lit "extensions",
                                 VDict [(lit "role_id", VStr (lit "r1"));
                                        (lit "title", VStr (lit "  "))])])]).
  reflexivity.
Defined.

(** ** Batcher *)

Section BatcherFacts.

Variable A : Type.

Lemma firstn_plus (a b : nat) (l : list A) :
firstn (a + b) l = firstn a l ++ firstn b (skipn a l).
Proof.
revert l. induction a as [|a IH]; intros l; [reflexivity|].
destruct l as [|x l]; simpl.
- destruct b; reflexivity.
- f_equal. apply IH.
Qed.

Lemma concat_windows (n : nat) (data : list A) (m : nat) :
concat (map (window n data) (seq 0 m)) = firstn (m * n) data.
Proof.
induction m as [|m IH]; [reflexivity|].
rewrite seq_S, map_app, concat_app, IH. simpl.
rewrite app_nil_r. unfold window.
replace (n + m * n) with (m * n + n) by lia.
symmetry. apply firstn_plus.
Qed.

Lemma window_length (n : nat) (data : list A) (k : nat) :
length (window n data k) = Nat.min n (length data - k * n).
Proof. unfold window. rewrite length_firstn, length_skipn. reflexivity. Qed.

Lemma slice_window (data : list A) (n k : nat) :
slice data (0 + Z.of_nat k * Z.of_nat n) (0 + Z.of_nat k * Z.of_nat n + Z.of_nat n)
= window n data k.
Proof.
unfold slice, slice_bound, window.
destruct (Z.ltb_spec (0 + Z.of_nat k * Z.of_nat n) 0) as [H|_]; [lia|].
destruct (Z.ltb_spec (0 + Z.of_nat k * Z.of_nat n + Z.of_nat n) 0) as [H|_]; [lia|].
replace (Z.to_nat (Z.min (0 + Z.of_nat k * Z.of_nat n) (Z.of_nat (length data))))
  with (Nat.min (k * n) (length data)) by lia.
replace (Z.to_nat (Z.min (0 + Z.of_nat k * Z.of_nat n + Z.of_nat n)
                         (Z.of_nat (length data))))
  with (Nat.min (k * n + n) (length data)) by lia.
destruct (Nat.le_gt_cases (length data) (k * n)) as [Hout|Hin].
- rewrite Nat.min_r by lia. rewrite !skipn_all2 by lia.
  rewrite !firstn_nil. reflexivity.
- rewrite (Nat.min_l (k * n)) by lia.
  destruct (Nat.le_gt_cases (k * n + n) (length data)) as [Hfull|Hshort].
  + rewrite Nat.min_l by lia. f_equal. lia.
  + rewrite Nat.min_r by lia.
    rewrite !firstn_all2; [reflexivity | | ]; rewrite length_skipn; lia.
Qed.

(** The number of chunks for a positive size. *)
Lemma range_length_covers (len n : nat) :
0 < n ->
let count := range_length 0 (Z.of_nat len) (Z.of_nat n) in
len <= count * n /\ (forall k, k < count -> k * n < len).
Proof.
intros Hn. cbv zeta. unfold range_length.
destruct (Z.ltb_spec 0 (Z.of_nat n)) as [_|H]; [|lia].
destruct (Z.ltb_spec 0 (Z.of_nat len)) as [Hlen|Hlen].
- pose proof (Z.div_mod (Z.of_nat len - 0 - 1) (Z.of_nat n) ltac:(lia)) as Hdiv.
  pose proof (Z.mod_pos_bound (Z.of_nat len - 0 - 1) (Z.of_nat n) ltac:(lia)) as Hmod.
  assert (Hq : (0 <= (Z.of_nat len - 0 - 1) / Z.of_nat n)%Z)
    by (apply Z.div_pos; lia).
  set (q := ((Z.of_nat len - 0 - 1) / Z.of_nat n)%Z) in *.
  split.
  + apply Nat2Z.inj_le. rewrite Nat2Z.inj_mul, Z2Nat.id by lia. nia.
  + intros k Hk. apply Nat2Z.inj_lt. rewrite Nat2Z.inj_mul.
    assert (Z.of_nat k <= q)%Z by lia. nia.
- split; [lia | intros k Hk; lia].
Qed.

Lemma chunked_windows (data : list A) (n : nat) :
0 < n ->
chunked data (Z.of_nat n)
= Ok (map (window n data)
          (seq 0 (range_length 0 (Z.of_nat (length data)) (Z.of_nat n)))).
Proof.
intros Hn. unfold chunked, py_range.
destruct (Z.eqb_spec (Z.of_nat n) 0) as [H|_]; [lia|].
rewrite map_map. f_equal. apply map_ext. intros k. apply slice_window.
Qed.

Lemma chunked_positive (data : list A) (size : Z) :
(1 <= size)%Z ->
exists chunks,
  chunked data size = Ok chunks
  /\ concat chunks = data
  /\ Forall (fun c => (Z.of_nat (length c) <= size)%Z /\ c <> []) chunks
  /\ (forall i, S i < length chunks -> Z.of_nat (length (nth i chunks [])) = size)
  /\ (data = [] -> chunks = []).
Proof.
intros Hsize.
rewrite <- (Z2Nat.id size) by lia.
set (n := Z.to_nat size). assert (Hn : 0 < n) by lia.
destruct (range_length_covers (length data) n Hn) as [Hcover Hinside].
rewrite (chunked_windows data n Hn).
set (count := range_length 0 (Z.of_nat (length data)) (Z.of_nat n)) in *.
eexists. split; [reflexivity|]. repeat split.
- rewrite concat_windows. apply firstn_all2. exact Hcover.
- apply Forall_forall. intros c Hc. apply in_map_iff in Hc as [k [<- Hk]].
  apply in_seq in Hk. specialize (Hinside k ltac:(lia)).
  split.
  + rewrite window_length. lia.
  + intros Hnil. apply (f_equal (@length A)) in Hnil.
    rewrite window_length in Hnil. simpl in Hnil. lia.
- intros i Hi. rewrite length_map, length_seq in Hi.
  rewrite (nth_indep _ [] (window n data 0)) by (rewrite length_map, length_seq; lia).
  rewrite (map_nth (window n data)), seq_nth by lia.
  rewrite window_length. specialize (Hinside (S i) Hi). simpl in *. lia.
- intros ->. destruct count as [|c]; [reflexivity|].
  specialize (Hinside 0 ltac:(lia)). simpl in Hinside. lia.
Qed.

End BatcherFacts.

(** C5. For a batch size of at least 1, [chunked] yields chunks whose
    concatenation is the input, in order; every chunk has at most [size]
    elements (and at least one), every chunk but the last has exactly
    [size], and an empty input yields no chunk. *)
Theorem chunked_partition (A : Type) (data : list A) (size : Z) :
  (1 <= size)%Z ->
  exists chunks,
    chunked data size = Ok chunks
    /\ concat chunks = data
    /\ Forall (fun c => (Z.of_nat (length c) <= size)%Z /\ c <> []) chunks
    /\ (forall i, S i < length chunks -> Z.of_nat (length (nth i chunks [])) = size)
    /\ (data = [] -> chunks = []).
Proof. apply chunked_positive. Qed.

Lemma chunked_partition_witness :
  chunked [1; 2; 3; 4; 5] 2 = Ok [[1; 2]; [3; 4]; [5]] /\
  exists chunks,
    chunked [1; 2; 3; 4; 5] 2 = Ok chunks
    /\ concat chunks = [1; 2; 3; 4; 5]
    /\ Forall (fun c => (Z.of_nat (length c) <= 2)%Z /\ c <> []) chunks
    /\ (forall i, S i < length chunks -> Z.of_nat (length (nth i chunks [])) = 2%Z)
    /\ ([1; 2; 3; 4; 5] = [] -> chunks = []).
Proof.
  split; [reflexivity|].
  apply (chunked_partition nat [1; 2; 3; 4; 5] 2). lia.
Defined.

(** C6 (amended). With a batch size of zero or less the run is refused by
    the guard of [main]: it raises [ValueError] before the file is read, a
    request is sent or a line is printed.  The batcher by itself raises
    only for a size of zero; for a negative size it yields no chunk. *)
Theorem nonpositive_batch_size
        (isprintable : codepoint -> bool) (Store : Type)
        (execute : Client -> request -> Store -> reply * Store)
        (args : Namespace) (f : source_file) (env : Environ) (w : World Store)
        (A : Type) (data : list A) :
  (batch_size args <= 0)%Z ->
  main isprintable execute args f env w
  = (Raise batch_size_error, w)
  /\ chunked data (batch_size args)
     = if (batch_size args =? 0)%Z
       then Raise (Exn ValueError (lit "range() arg 3 must not be zero"))
       else Ok [].
Proof.
  intros Hsize. split.
  - unfold main. destruct (Z.leb_spec (batch_size args) 0) as [_|H]; [reflexivity | lia].
  - unfold chunked, py_range, range_length.
    destruct (Z.eqb_spec (batch_size args) 0) as [_|Hnz]; [reflexivity|].
    destruct (Z.ltb_spec 0 (batch_size args)) as [H|_]; [lia|].
    destruct (Z.ltb_spec (Z.of_nat (length data)) 0) as [H|_]; [lia|].
    reflexivity.
Qed.

Lemma nonpositive_batch_size_witness :
  main isprintable_ascii table_execute zero_batch_args
       (Contents (VList [raw_plain])) sample_env empty_world
  = (Raise batch_size_error, empty_world)
  /\ chunked five_rows (batch_size zero_batch_args)
     = Raise (Exn ValueError (lit "range() arg 3 must not be zero")).
Proof.
  apply (nonpositive_batch_size isprintable_ascii table_store table_execute zero_batch_args
           (Contents (VList [raw_plain])) sample_env empty_world payload five_rows).
  simpl. lia.
Defined.

(** With the size -2 the batcher does not fail: it yields no chunk at all. *)
Lemma chunked_negative_size_no_failure :
  chunked five_rows (-2) = Ok [].
Proof. reflexivity. Qed.

(** ** Upsert Executor *)

Lemma accepted_plus_failures (batch : list payload) (replies : list reply) :
  length replies = length batch ->
  accepted replies + length (failure_entries batch replies) = length batch.
Proof.
  revert replies. unfold accepted.
  induction batch as [|role batch IH]; intros [|r replies] H; try discriminate.
  - reflexivity.
  - injection H as H. specialize (IH replies H).
    destruct r; simpl; lia.
Qed.

Section ExecutorFacts.

Variable Store : Type.
Variable execute : Client -> request -> Store -> reply * Store.
Variable client : Client.
Variable table_name : pystr.

(** The row-by-row retry of a batch sends one request per row, in order, and
  counts each reply once. *)
Lemma retry_rows_trace (batch : list payload) :
forall (n : nat) (fails : list failure) (w : World Store),
exists replies w',
  retry_rows execute client table_name batch n fails w
  = (Ok (n + accepted replies, fails ++ failure_entries batch replies), w')
  /\ length replies = length batch
  /\ sent w' = sent w ++ combine (map (UpsertRow table_name) batch) replies.
Proof.
induction batch as [|role batch IH]; intros n fails w.
- exists [], w. simpl. unfold ret, accepted. simpl.
  rewrite Nat.add_0_r, !app_nil_r. auto.
- cbn [retry_rows]. unfold bind at 1. unfold upsert.
  destruct (execute client (UpsertRow table_name role) (store w)) as [[|exc] s].
  + unfold bind at 1. unfold print at 1. cbn [store sent stdout].
    destruct (IH (n + 1) fails
                {| store := s;
                   sent := sent w ++ [(UpsertRow table_name role, Done)];
                   stdout := stdout w ++ [RowWritten (role_id role)] |})
      as [replies [w1 [Hrun [Hlen Hsent]]]].
    exists (Done :: replies), w1. rewrite Hrun. cbn [sent] in Hsent.
    split; [|split].
    * unfold accepted. simpl. do 2 f_equal. f_equal. lia.
    * simpl. congruence.
    * rewrite Hsent, <- app_assoc. reflexivity.
  + unfold bind at 1. unfold print at 1. cbn [store sent stdout].
    destruct (IH n (fails ++ [(role_id role, exn_text exc)])
                {| store := s;
                   sent := sent w ++ [(UpsertRow table_name role, Failed exc)];
                   stdout := stdout w ++ [RowFailed (role_id role) (exn_text exc)] |})
      as [replies [w1 [Hrun [Hlen Hsent]]]].
    exists (Failed exc :: replies), w1. rewrite Hrun. cbn [sent] in Hsent.
    split; [|split].
    * unfold accepted. simpl. rewrite <- app_assoc. reflexivity.
    * simpl. congruence.
    * rewrite Hsent, <- app_assoc. reflexivity.
Qed.

Lemma upsert_batch_trace (total : nat) (batch : list payload) (n : nat)
    (fails : list failure) (w : World Store) :
match execute client (UpsertRows table_name batch) (store w) with
| (Done, s) =>
    upsert_batch execute client table_name total batch n fails w
    = (Ok (n + length batch, fails),
       {| store := s;
          sent := sent w ++ [(UpsertRows table_name batch, Done)];
          stdout := stdout w ++ [BatchWritten (n + length batch) total] |})
| (Failed exc, s) =>
    exists replies w',
      upsert_batch execute client table_name total batch n fails w
      = (Ok (n + accepted replies, fails ++ failure_entries batch replies), w')
      /\ length replies = length batch
      /\ sent w' = sent w ++ (UpsertRows table_name batch, Failed exc)
                             :: combine (map (UpsertRow table_name) batch) replies
end.
Proof.
unfold upsert_batch, bind, upsert, print, ret. cbv beta.
destruct (execute client (UpsertRows table_name batch) (store w)) as [[|exc] s].
- reflexivity.
- cbn [store sent stdout].
  destruct (retry_rows_trace batch n fails
              {| store := s;
                 sent := sent w ++ [(UpsertRows table_name batch, Failed exc)];
                 stdout := stdout w ++ [BatchFailed (length batch) (exn_text exc)] |})
    as [replies [w1 [Hrun [Hlen Hsent]]]].
  exists replies, w1. rewrite Hrun. cbn [sent] in Hsent.
  rewrite Hsent, <- app_assoc. auto.
Qed.

Lemma upsert_batch_count (total : nat) (batch : list payload) (n : nat)
    (fails : list failure) (w : World Store) :
exists n' fails' w',
  upsert_batch execute client table_name total batch n fails w = (Ok (n', fails'), w')
  /\ n' + length fails' = n + length fails + length batch.
Proof.
pose proof (upsert_batch_trace total batch n fails w) as H.
destruct (execute client (UpsertRows table_name batch) (store w)) as [[|exc] s].
- do 3 eexists. split; [exact H | lia].
- destruct H as [replies [w' [Hrun [Hlen _]]]].
  do 3 eexists. split; [exact Hrun|].
  rewrite length_app. pose proof (accepted_plus_failures batch replies Hlen). lia.
Qed.

Lemma upsert_batches_count (total : nat) (batches : list (list payload)) :
forall (n : nat) (fails : list failure) (w : World Store),
exists n' fails' w',
  upsert_batches execute client table_name total batches n fails w
  = (Ok (n', fails'), w')
  /\ n' + length fails' = n + length fails + length (concat batches).
Proof.
induction batches as [|batch batches IH]; intros n fails w.
- exists n, fails, w. split; [reflexivity | simpl; lia].
- cbn [upsert_batches]. unfold bind.
  destruct (upsert_batch_count total batch n fails w) as [n1 [f1 [w1 [Hrun Hsum]]]].
  rewrite Hrun. cbn [fst snd].
  destruct (IH n1 f1 w1) as [n2 [f2 [w2 [Hrest Hsum2]]]].
  exists n2, f2, w2. split; [exact Hrest|].
  simpl. rewrite length_app. lia.
Qed.

End ExecutorFacts.


(** Five rows in batches of two against a table that refuses a row without
    a name: the second batch is refused as a whole and retried row by row,
    the row [r3] fails alone and the four others are accepted, with five
    requests sent in all. *)
Example five_rows_in_batches_of_two :
  let out := upsert_roles table_execute sample_client (lit "role_data") five_rows 2
                          empty_world in
  fst out = Ok (4, [(lit "r3", lit "null value in column name")])
  /\ length (sent (snd out)) = 5
  /\ map role_id (store (snd out)) = [lit "r1"; lit "r2"; lit "r4"; lit "r5"].
Proof. repeat split. Qed.

(** C10. For a positive batch size [upsert_roles] returns, and the accepted
    count plus the number of failure entries is the number of rows given:
    every row is accounted for exactly once. *)
Theorem upsert_roles_accounts
        (Store : Type) (execute : Client -> request -> Store -> reply * Store)
        (client : Client) (table_name : pystr) (roles : list payload) (size : Z)
        (w : World Store) :
  (1 <= size)%Z ->
  exists success_count failures w',
    upsert_roles execute client table_name roles size w
    = (Ok (success_count, failures), w')
    /\ success_count + length failures = length roles.
Proof.
  intros Hsize. unfold upsert_roles.
  destruct (chunked_positive payload roles size Hsize) as [batches [Hchunks [Hcat _]]].
  rewrite Hchunks.
  destruct (upsert_batches_count Store execute client table_name (length roles) batches
              0 [] w) as [n [fails [w' [Hrun Hsum]]]].
  exists n, fails, w'. split; [exact Hrun|].
  rewrite Hcat in Hsum. simpl in Hsum. exact Hsum.
Qed.

Lemma upsert_roles_accounts_witness :
  exists success_count failures w',
    upsert_roles table_execute sample_client (lit "role_data") five_rows 2 empty_world
    = (Ok (success_count, failures), w')
    /\ success_count + length failures = length five_rows.
Proof.
  apply (upsert_roles_accounts table_store table_execute sample_client (lit "role_data")
           five_rows 2 empty_world).
  lia.
Defined.

(** ** Migration Orchestrator *)

Section OrchestratorFacts.

Variable isprintable : codepoint -> bool.
Variable Store : Type.
Variable execute : Client -> request -> Store -> reply * Store.

Lemma printed_printed (w : World Store) (a b : list line) :
printed (printed w a) b = printed w (a ++ b).
Proof. unfold printed. simpl. rewrite app_assoc. reflexivity. Qed.

Lemma print_all_printed (ls : list line) (w : World Store) :
print_all ls w = (Ok tt, printed w ls).
Proof.
revert w. induction ls as [|l ls IH]; intros w.
- unfold printed. simpl. rewrite app_nil_r. destruct w; reflexivity.
- cbn [print_all]. unfold bind. change (print l w) with (Ok tt, printed w [l]).
  cbv iota. rewrite IH, printed_printed. reflexivity.
Qed.

(** The normalization loop talks to the console only. *)
Lemma normalize_all_offline (roles : list value) :
forall index normalized skipped (w : World Store),
  let out := normalize_all isprintable index roles normalized skipped w in
  store (snd out) = store w /\ sent (snd out) = sent w.
Proof.
induction roles as [|role roles IH]; intros index normalized skipped w; cbv zeta.
- split; reflexivity.
- cbn [normalize_all].
  destruct (normalize_role isprintable role) as [p|exc]; [apply IH|].
  destruct (catches ValueError exc); [|split; reflexivity].
  destruct (role_id_hint role) as [hint|e]; [|split; reflexivity].
  unfold bind. change (print ?l w) with (Ok tt, printed w [l]). cbv iota.
  match goal with |- context [normalize_all _ ?i _ ?n ?s ?w0] =>
    destruct (IH i n s w0) as [H1 H2] end.
  split; [rewrite H1 | rewrite H2]; reflexivity.
Qed.

Lemma credentials_missing_raise (env : Environ) :
credentials_missing env ->
create_supabase_client env = Raise credentials_error.
Proof.
unfold credentials_missing, unset, create_supabase_client.
intros [[H | H] | [H | H]]; rewrite H; try reflexivity;
  destruct (SUPABASE_URL env) as [[|u url]|]; reflexivity.
Qed.

End OrchestratorFacts.

(** C8 (the code at the failing input). The record
    [{"data": {"extensions": null}}] has no identifier, so [normalize_role]
    raises the missing identifier error; the handler of that error then
    calls [get] on [None] while it looks for a hint, and the
    [AttributeError] leaves [main]: nothing is added to the skipped list
    and the run ends with exit status 1. *)
Theorem null_extensions_aborts_run
        (isprintable : codepoint -> bool) (Store : Type)
        (execute : Client -> request -> Store -> reply * Store)
        (env : Environ) (w : World Store) :
  normalize_role isprintable raw_null_extensions = Raise role_id_missing
  /\ role_id_hint raw_null_extensions = Raise (no_attribute VNone "get")
  /\ main isprintable execute sample_args (Contents (VList [raw_null_extensions])) env w
     = (Raise (no_attribute VNone "get"), printed w [Loaded 1])
  /\ exit_status
       (fst (main isprintable execute sample_args
                  (Contents (VList [raw_null_extensions])) env w)) = 1%Z.
Proof. repeat split. Qed.

(** C9 (amended). A batch size of zero or less raises before anything else
    is done, and the run ends with a non-zero status.  An input file that
    is missing, unreadable, malformed or of an unexpected top-level shape is
    reported on the console and [main] returns: no record is processed, no
    request is sent and the exit status is 0.  Missing store credentials are
    found only after every record was read and normalized, and only when
    dry-run is off: the run then raises before any request is sent; with
    dry-run on, the credentials are never looked at. *)
Theorem configuration_errors
        (isprintable : codepoint -> bool) (Store : Type)
        (execute : Client -> request -> Store -> reply * Store)
        (args : Namespace) (f : source_file) (env : Environ) (w : World Store) :
  ((batch_size args <= 0)%Z ->
   main isprintable execute args f env w = (Raise batch_size_error, w))
  /\ (forall e,
       (0 < batch_size args)%Z ->
       load_roles (file args) f = Raise e ->
       main isprintable execute args f env w
       = (Ok tt, printed w [LoadFailed (file args) (exn_text e)]))
  /\ (forall roles normalized skipped w1,
       (0 < batch_size args)%Z ->
       load_roles (file args) f = Ok roles ->
       normalize_all isprintable 1 roles [] [] (printed w [Loaded (length roles)])
       = (Ok (normalized, skipped), w1) ->
       dry_run args = false ->
       credentials_missing env ->
       main isprintable execute args f env w
       = (Raise credentials_error,
          printed w1 (Writable (length normalized) (length skipped)
                      :: map (fun s => SkippedDetail (fst s) (snd s)) skipped))
       /\ store w1 = store w /\ sent w1 = sent w)
  /\ (forall env',
       dry_run args = true ->
       main isprintable execute args f env w = main isprintable execute args f env' w).
Proof.
  split; [|split; [|split]].
  - intros H. unfold main.
    destruct (Z.leb_spec (batch_size args) 0) as [_|H']; [reflexivity | lia].
  - intros e Hsize Hload. unfold main.
    destruct (Z.leb_spec (batch_size args) 0) as [H'|_]; [lia|].
    rewrite Hload. reflexivity.
  - intros roles normalized skipped w1 Hsize Hload Hnorm Hdry Hcred.
    pose proof (normalize_all_offline isprintable Store roles 1 [] []
                  (printed w [Loaded (length roles)])) as Hoff.
    cbv zeta in Hoff. rewrite Hnorm in Hoff.
    split; [|exact Hoff].
    unfold main.
    destruct (Z.leb_spec (batch_size args) 0) as [H'|_]; [lia|].
    rewrite Hload. unfold bind at 1.
    change (print (Loaded (length roles)) w)
      with (Ok tt, printed w [Loaded (length roles)]). cbv iota.
    unfold bind at 1. rewrite Hnorm.
    unfold bind at 1.
    change (print (Writable (length normalized) (length skipped)) w1)
      with (Ok tt, printed w1 [Writable (length normalized) (length skipped)]).
    cbv iota.
    unfold bind at 1. rewrite print_all_printed, printed_printed.
    rewrite Hdry, (credentials_missing_raise env Hcred). reflexivity.
  - intros env' Hdry. unfold main. rewrite Hdry. reflexivity.
Qed.

Lemma configuration_errors_witness :
  main isprintable_ascii table_execute sample_args NoFile sample_env empty_world
  = (Ok tt,
     printed empty_world
       [LoadFailed (lit "character_v2.json")
                   (lit "Role library file not found: character_v2.json")]).
Proof.
  apply (proj1 (proj2 (configuration_errors isprintable_ascii table_store table_execute
                         sample_args NoFile sample_env empty_world))
           (Exn FileNotFoundError (lit "Role library file not found: character_v2.json"))).
  - simpl. lia.
  - reflexivity.
Defined.

(** A missing input file ends the run with exit status 0; and with the
    credentials missing, the record of the file is read and normalized (the
    console shows it loaded and writable) before the run raises. *)
Lemma configuration_error_outcomes :
  exit_status (fst (main isprintable_ascii table_execute sample_args NoFile
                         empty_env empty_world)) = 0%Z
  /\ main isprintable_ascii table_execute sample_args (Contents (VList [raw_plain]))
          empty_env empty_world
     = (Raise credentials_error, printed empty_world [Loaded 1; Writable 1 0]).
Proof. split; reflexivity. Qed.

(** * Further properties *)

(** ** Field Normalizer *)

Lemma lstrip_spaces_front (s : pystr) :
  exists front, s = front ++ lstrip s /\ forallb isspace front = true.
Proof.
  induction s as [|a s [front [IH Hf]]]; simpl.
  - exists []. split; reflexivity.
  - destruct (isspace a) eqn:Ha.
    + exists (a :: front). simpl. rewrite Ha, Hf. split; [f_equal; exact IH | reflexivity].
    + exists []. split; reflexivity.
Qed.

Lemma lstrip_nil_spaces (s : pystr) : lstrip s = [] -> forallb isspace s = true.
Proof.
  intros H. destruct (lstrip_spaces_front s) as [front [Hs Hf]].
  rewrite H, app_nil_r in Hs. rewrite Hs. exact Hf.
Qed.

Lemma forallb_rev (f : codepoint -> bool) (s : pystr) :
  forallb f (rev s) = forallb f s.
Proof.
  induction s as [|a s IH]; [reflexivity|].
  simpl. rewrite forallb_app, IH. simpl. rewrite andb_true_r. apply andb_comm.
Qed.

Lemma strip_nil_iff (s : pystr) : strip s = [] <-> forallb isspace s = true.
Proof.
  split; [|apply strip_spaces].
  unfold strip, rstrip. intros H.
  apply (f_equal (@rev codepoint)) in H. rewrite rev_involutive in H. simpl in H.
  apply lstrip_nil_spaces in H. rewrite forallb_rev in H.
  destruct (lstrip_spaces_front s) as [front [Hs Hf]].
  rewrite Hs, forallb_app, Hf, H. reflexivity.
Qed.

Lemma normalize_role_dict_raise (isprintable : codepoint -> bool) (wrapper : dict) (e : exn) :
  normalize_role isprintable (VDict wrapper) = Raise e -> e = role_id_missing.
Proof.
  unfold normalize_role. destruct (negb _); [|discriminate].
  intros H. injection H as <-. reflexivity.
Qed.

Lemma hint_unknown (isprintable : codepoint -> bool) (role : value) (e : exn) (h : value) :
  normalize_role isprintable role = Raise e ->
  catches ValueError e = true ->
  role_id_hint role = Ok h ->
  h = VStr (lit "UNKNOWN").
Proof.
  destruct role as [| | | | | |wrapper];
    try (simpl; intros H; injection H as <-; discriminate).
  unfold normalize_role, role_id_hint. intros Hraise _.
  destruct (dict_get wrapper (lit "data") (VDict [])) as [| | | | | |data];
    try (intros H; injection H as <-; reflexivity).
  cbn [as_dict] in Hraise.
  destruct (dict_get data (lit "extensions") (VDict [])) as [| | | | | |ext];
    try discriminate.
  cbn [as_dict py_get] in *.
  destruct (truthy (py_or (dict_get ext (lit "role_id") VNone)
                          (dict_get data (lit "role_id") VNone))) eqn:Ht;
    [discriminate|].
  intros H. injection H as <-. unfold py_or at 1. rewrite Ht. reflexivity.
Qed.

Lemma hint_of_well_shaped (role : value) :
  well_shaped role = true -> exists h, role_id_hint role = Ok h.
Proof.
  unfold well_shaped, role_id_hint, dict_get.
  destruct role as [| | | | | |wrapper]; try discriminate.
  destruct (lookup (lit "data") wrapper) as [[| | | | | |data]|];
    try (intros _; eexists; reflexivity).
  destruct (lookup (lit "extensions") data) as [[| | | | | |ext]|];
    try discriminate; intros _; eexists; reflexivity.
Qed.

(** X1. The three JSONB columns of a normalized record hold the object
    found at [data.alternate_greetings], [data.character_book] and
    [data.tags], unchanged, and [None] where the key is missing or [data]
    is not an object. *)
Theorem opaque_columns_pass_through
        (isprintable : codepoint -> bool) (wrapper : dict) (p : payload) :
  normalize_role isprintable (VDict wrapper) = Ok p ->
  alternate_greetings p
  = or_none (at_path (VDict wrapper) [lit "data"; lit "alternate_greetings"])
  /\ character_book p = or_none (at_path (VDict wrapper) [lit "data"; lit "character_book"])
  /\ tags p = or_none (at_path (VDict wrapper) [lit "data"; lit "tags"]).
Proof.
  unfold normalize_role. destruct (negb _); [discriminate|].
  intros H. injection H as <-. cbn [alternate_greetings character_book tags].
  rewrite !data_get. auto.
Qed.

Lemma opaque_columns_pass_through_witness :
  exists p, normalize_role isprintable_ascii raw_tagged = Ok p
            /\ tags p = VList [VStr (lit "fox"); VInt 7]
            /\ character_book p = VNone
            /\ alternate_greetings p = VNone.
Proof.
  eexists. split; [reflexivity|].
  destruct (opaque_columns_pass_through isprintable_ascii
              [(lit "data", VDict [(lit "role_id", VInt 12);
                                   (lit "tags", VList [VStr (lit "fox"); VInt 7]);
                                   (lit "character_book", VNone)])]
              _ eq_refl) as [H1 [H2 H3]].
  split; [exact H3 | split; [exact H2 | exact H1]].
Defined.

(** X2. The identifier of every normalized record is trimmed: neither its
    first nor its last code point is white space. *)
Theorem role_id_trimmed (isprintable : codepoint -> bool) (role : value) (p : payload) :
  normalize_role isprintable role = Ok p -> trimmed (role_id p).
Proof.
  destruct role as [| | | | | |wrapper]; try discriminate.
  unfold normalize_role. destruct (negb _); [discriminate|].
  intros H. injection H as <-. apply strip_trimmed.
Qed.

Lemma role_id_trimmed_witness :
  exists p, normalize_role isprintable_ascii raw_padded = Ok p /\ trimmed (role_id p).
Proof.
  eexists. split; [reflexivity|].
  apply (role_id_trimmed isprintable_ascii raw_padded). reflexivity.
Defined.

(** X3. When the resolved [role_id] is a string, the identifier of the
    normalized record is empty exactly when that string is made of white
    space only. *)
Theorem role_id_empty_iff
        (isprintable : codepoint -> bool) (wrapper : dict) (s : pystr) (p : payload) :
  resolved_role_id (VDict wrapper) = Some (VStr s) ->
  normalize_role isprintable (VDict wrapper) = Ok p ->
  (role_id p = [] <-> forallb isspace s = true).
Proof.
  intros Hres Hp. pose proof (normalize_role_resolved isprintable wrapper) as R.
  rewrite Hres in R. destruct R as [q [Hq Hid]].
  rewrite Hp in Hq. injection Hq as <-. rewrite Hid. apply strip_nil_iff.
Qed.

Lemma role_id_empty_iff_witness :
  exists p, normalize_role isprintable_ascii raw_blank_id = Ok p
            /\ (role_id p = [] <-> forallb isspace (lit " ") = true).
Proof.
  eexists. split; [reflexivity|].
  apply (role_id_empty_iff isprintable_ascii
           [(lit "spec", VStr (lit "chara_card_v2"));
            (lit "data", VDict [(lit "name", VStr (lit " Ann "));
                                (lit "extensions", VDict [(lit "role_id", VStr (lit " "))])])]
           (lit " ")); reflexivity.
Defined.

(** X4. Whenever [normalize_role] raises the error that [main] catches and
    the handler finds a hint at all, the hint is the text [UNKNOWN]: an
    identifier that the handler could show would have let the record
    normalize. *)
Theorem skipped_hint_is_unknown
        (isprintable : codepoint -> bool) (role : value) (e : exn) (h : value) :
  normalize_role isprintable role = Raise e ->
  catches ValueError e = true ->
  role_id_hint role = Ok h ->
  h = VStr (lit "UNKNOWN").
Proof. apply hint_unknown. Qed.

Lemma skipped_hint_is_unknown_witness :
  exists h, role_id_hint raw_no_id = Ok h /\ h = VStr (lit "UNKNOWN").
Proof.
  eexists. split; [reflexivity|].
  apply (skipped_hint_is_unknown isprintable_ascii raw_no_id role_id_missing);
    reflexivity.
Defined.

(** ** The normalization loop *)

Lemma printed_nil {Store : Type} (w : World Store) : printed w [] = w.
Proof. unfold printed. rewrite app_nil_r. destruct w; reflexivity. Qed.

Section LoopFacts.

Variable isprintable : codepoint -> bool.
Variable Store : Type.

Lemma normalize_all_well_shaped (roles : list value) :
  Forall (fun r => well_shaped r = true) roles ->
  forall index normalized skipped (w : World Store),
  exists skipped' lines,
    normalize_all isprintable index roles normalized skipped w
    = (Ok (normalized ++ successes isprintable roles, skipped ++ skipped'),
       printed w lines)
    /\ length (successes isprintable roles) + length skipped' = length roles
    /\ Forall (fun x => x = unknown_skip) skipped'
    /\ length lines = length skipped'.
Proof.
  induction 1 as [|role roles Hrole _ IH]; intros index normalized skipped w.
  - exists [], []. cbn [normalize_all successes flat_map].
    rewrite !app_nil_r, printed_nil. unfold ret. auto.
  - cbn [normalize_all]. unfold successes. cbn [flat_map]. fold (successes isprintable roles).
    destruct (normalize_role isprintable role) as [p|exc] eqn:Hnorm.
    + destruct (IH (S index) (normalized ++ [p]) skipped w)
        as [skipped' [lines [Hrun [Hlen [Hall Hlines]]]]].
      exists skipped', lines. rewrite Hrun, <- app_assoc.
      repeat split; [simpl; lia | exact Hall | exact Hlines].
    + destruct (hint_of_well_shaped role Hrole) as [h Hh].
      assert (Hexc : exc = role_id_missing).
      { destruct role; try discriminate.
        exact (normalize_role_dict_raise isprintable _ _ Hnorm). }
      subst exc. cbn [catches role_id_missing exn_class_of].
      pose proof (hint_unknown isprintable role role_id_missing h Hnorm eq_refl Hh) as ->.
      rewrite Hh. unfold bind.
      change (print ?l w) with (Ok tt, printed w [l]). cbv iota.
      match goal with |- context [normalize_all _ ?i _ ?n ?s ?w0] =>
        destruct (IH i n s w0) as [skipped' [lines [Hrun [Hlen [Hall Hlines]]]]] end.
      eexists (unknown_skip :: skipped'), (_ :: lines).
      rewrite Hrun, printed_printed, <- app_assoc.
      repeat split; [simpl; lia | constructor; [reflexivity | exact Hall] | simpl; lia].
Qed.

Lemma normalize_all_stops (pre : list value) (bad : value) (post : list value) (e : exn) :
  Forall (fun r => well_shaped r = true) pre ->
  (forall index normalized skipped (w : World Store),
     normalize_all isprintable index (bad :: post) normalized skipped w = (Raise e, w)) ->
  forall index normalized skipped (w : World Store),
  exists lines,
    normalize_all isprintable index (pre ++ bad :: post) normalized skipped w
    = (Raise e, printed w lines).
Proof.
  intros Hpre Hbad. induction Hpre as [|role roles Hrole _ IH];
    intros index normalized skipped w.
  - exists []. rewrite printed_nil. apply Hbad.
  - cbn [app normalize_all].
    destruct (normalize_role isprintable role) as [p|exc] eqn:Hnorm; [apply IH|].
    destruct (hint_of_well_shaped role Hrole) as [h Hh].
    assert (Hexc : exc = role_id_missing).
    { destruct role; try discriminate.
      exact (normalize_role_dict_raise isprintable _ _ Hnorm). }
    subst exc. cbn [catches role_id_missing exn_class_of]. rewrite Hh. unfold bind.
    change (print ?l w) with (Ok tt, printed w [l]). cbv iota.
    match goal with |- context [normalize_all _ ?i _ ?n ?s ?w0] =>
      destruct (IH i n s w0) as [lines Hrun] end.
    exists (SkippedRole index h (exn_text role_id_missing) :: lines).
    rewrite Hrun, printed_printed. reflexivity.
Qed.

Variable execute : Client -> request -> Store -> reply * Store.

Lemma main_loop_raises (args : Namespace) (f : source_file) (env : Environ)
      (roles : list value) (e : exn) (w : World Store) (lines : list line) :
  (0 < batch_size args)%Z ->
  load_roles (file args) f = Ok roles ->
  normalize_all isprintable 1 roles [] [] (printed w [Loaded (length roles)])
  = (Raise e, printed (printed w [Loaded (length roles)]) lines) ->
  main isprintable execute args f env w
  = (Raise e, printed w (Loaded (length roles) :: lines)).
Proof.
  intros Hsize Hload Hloop. unfold main.
  destruct (Z.leb_spec (batch_size args) 0) as [H|_]; [lia|].
  rewrite Hload. unfold bind at 1.
  change (print (Loaded (length roles)) w) with (Ok tt, printed w [Loaded (length roles)]).
  cbv iota. unfold bind at 1. rewrite Hloop, printed_printed. reflexivity.
Qed.

End LoopFacts.

(** X5. On well shaped records the normalization loop of [main] returns:
    the rows are those of the records that normalize, in order; every other
    record gives one entry of the skipped list, always with the hint
    [UNKNOWN] and the missing identifier text, and one line on the console;
    no record is lost and nothing is sent to the store. *)
Theorem normalization_loop_accounts
        (isprintable : codepoint -> bool) (Store : Type)
        (index : nat) (roles : list value) (w : World Store) :
  Forall (fun r => well_shaped r = true) roles ->
  exists skipped lines,
    normalize_all isprintable index roles [] [] w
    = (Ok (successes isprintable roles, skipped), printed w lines)
    /\ length (successes isprintable roles) + length skipped = length roles
    /\ Forall (fun x => x = unknown_skip) skipped
    /\ length lines = length skipped.
Proof.
  intros H.
  destruct (normalize_all_well_shaped isprintable Store roles H index [] [] w)
    as [skipped [lines Hrun]].
  exists skipped, lines. exact Hrun.
Qed.

Lemma normalization_loop_accounts_witness :
  exists skipped lines,
    normalize_all isprintable_ascii 1 [raw_no_id; raw_fallback; raw_plain] [] [] empty_world
    = (Ok (successes isprintable_ascii [raw_no_id; raw_fallback; raw_plain], skipped),
       printed empty_world lines)
    /\ length (successes isprintable_ascii [raw_no_id; raw_fallback; raw_plain])
       + length skipped = 3
    /\ Forall (fun x => x = unknown_skip) skipped
    /\ length lines = length skipped.
Proof.
  apply (normalization_loop_accounts isprintable_ascii table_store 1
           [raw_no_id; raw_fallback; raw_plain] empty_world).
  repeat constructor.
Defined.

(** X6. A record that is not an object stops the run: when the records
    before it are well shaped, [main] raises the [AttributeError] of the
    call of [get] on that record, whatever follows it in the file; the run
    ends with exit status 1 and nothing is sent to the store. *)
Theorem non_object_record_aborts
        (isprintable : codepoint -> bool) (Store : Type)
        (execute : Client -> request -> Store -> reply * Store)
        (args : Namespace) (env : Environ) (w : World Store)
        (pre : list value) (bad : value) (post : list value) :
  (0 < batch_size args)%Z ->
  Forall (fun r => well_shaped r = true) pre ->
  (forall d, bad <> VDict d) ->
  exists lines,
    main isprintable execute args (Contents (VList (pre ++ bad :: post))) env w
    = (Raise (no_attribute bad "get"), printed w lines).
Proof.
  intros Hsize Hpre Hbad.
  destruct (normalize_all_stops isprintable Store pre bad post (no_attribute bad "get") Hpre)
    with (index := 1) (normalized := @nil payload) (skipped := @nil (value * pystr))
         (w := printed w [Loaded (length (pre ++ bad :: post))]) as [lines Hloop].
  { intros index normalized skipped w0. cbn [normalize_all].
    destruct bad; try reflexivity. exfalso. exact (Hbad _ eq_refl). }
  eexists.
  apply (main_loop_raises isprintable Store execute args _ env (pre ++ bad :: post));
    [exact Hsize | reflexivity | exact Hloop].
Qed.

Lemma non_object_record_aborts_witness :
  exists lines,
    main isprintable_ascii table_execute sample_args
         (Contents (VList ([raw_plain; raw_no_id] ++ VStr (lit "r9") :: [raw_padded])))
         sample_env empty_world
    = (Raise (no_attribute (VStr (lit "r9")) "get"), printed empty_world lines).
Proof.
  apply (non_object_record_aborts isprintable_ascii table_store table_execute sample_args
           sample_env empty_world [raw_plain; raw_no_id] (VStr (lit "r9")) [raw_padded]).
  - simpl. lia.
  - repeat constructor.
  - discriminate.
Defined.

(** X7. A record whose [data] is an object with an [extensions] that is
    not an object, and with no usable [data.role_id], stops the run in the
    same way: the handler of the missing identifier calls [get] on that
    [extensions] value, and the [AttributeError] leaves [main]. *)
Theorem non_object_extensions_aborts
        (isprintable : codepoint -> bool) (Store : Type)
        (execute : Client -> request -> Store -> reply * Store)
        (args : Namespace) (env : Environ) (w : World Store)
        (pre post : list value) (wrapper data : dict) (ext : value) :
  (0 < batch_size args)%Z ->
  Forall (fun r => well_shaped r = true) pre ->
  lookup (lit "data") wrapper = Some (VDict data) ->
  lookup (lit "extensions") data = Some ext ->
  (forall d, ext <> VDict d) ->
  usable (lookup (lit "role_id") data) = false ->
  exists lines,
    main isprintable execute args (Contents (VList (pre ++ VDict wrapper :: post))) env w
    = (Raise (no_attribute ext "get"), printed w lines).
Proof.
  intros Hsize Hpre Hdata Hext Hnot Hid.
  destruct (normalize_all_stops isprintable Store pre (VDict wrapper) post
              (no_attribute ext "get") Hpre)
    with (index := 1) (normalized := @nil payload) (skipped := @nil (value * pystr))
         (w := printed w [Loaded (length (pre ++ VDict wrapper :: post))]) as [lines Hloop].
  { intros index normalized skipped w0. cbn [normalize_all].
    unfold normalize_role, role_id_hint, dict_get. rewrite Hdata. cbn [as_dict].
    rewrite Hext.
    assert (Hempty : as_dict ext = []) by (destruct ext; try reflexivity;
                                           exfalso; exact (Hnot _ eq_refl)).
    rewrite Hempty. cbn [lookup]. unfold py_or. cbn [truthy].
    destruct (lookup (lit "role_id") data) as [v|]; cbn [usable] in Hid.
    - rewrite Hid. cbn [negb catches role_id_missing exn_class_of].
      destruct ext; try reflexivity. exfalso. exact (Hnot _ eq_refl).
    - cbn [truthy negb catches role_id_missing exn_class_of].
      destruct ext; try reflexivity. exfalso. exact (Hnot _ eq_refl). }
  eexists.
  apply (main_loop_raises isprintable Store execute args _ env
           (pre ++ VDict wrapper :: post));
    [exact Hsize | reflexivity | exact Hloop].
Qed.

Lemma non_object_extensions_aborts_witness :
  exists lines,
    main isprintable_ascii table_execute sample_args
         (Contents (VList ([raw_plain] ++ raw_null_extensions :: [raw_padded])))
         sample_env empty_world
    = (Raise (no_attribute VNone "get"), printed empty_world lines).
Proof.
  apply (non_object_extensions_aborts isprintable_ascii table_store table_execute
           sample_args sample_env empty_world [raw_plain] [raw_padded]
           [(lit "data", VDict [(lit "extensions", VNone)])]
           [(lit "extensions", VNone)] VNone).
  - simpl. lia.
  - repeat constructor.
  - reflexivity.
  - reflexivity.
  - discriminate.
  - reflexivity.
Defined.

(** ** Batcher *)

Section BatcherMore.

Variable A : Type.

Lemma range_length_ceiling (len n : nat) :
  0 < n ->
  Z.of_nat (range_length 0 (Z.of_nat len) (Z.of_nat n))
  = ((Z.of_nat len + Z.of_nat n - 1) / Z.of_nat n)%Z.
Proof.
  intros Hn. unfold range_length.
  destruct (Z.ltb_spec 0 (Z.of_nat n)) as [_|H]; [|lia].
  destruct (Z.ltb_spec 0 (Z.of_nat len)) as [Hlen|Hlen].
  - rewrite Z2Nat.id.
    + replace (Z.of_nat len + Z.of_nat n - 1)%Z
        with (Z.of_nat len - 0 - 1 + 1 * Z.of_nat n)%Z by lia.
      rewrite Z.div_add by lia. reflexivity.
    + assert (0 <= (Z.of_nat len - 0 - 1) / Z.of_nat n)%Z by (apply Z.div_pos; lia). lia.
  - replace (Z.of_nat len) with 0%Z by lia.
    rewrite Z.div_small by lia. reflexivity.
Qed.

Lemma window_nth_error (n : nat) (data : list A) (k j : nat) :
  j < n -> nth_error (window n data k) j = nth_error data (k * n + j).
Proof.
  intros Hj. unfold window. rewrite nth_error_firstn.
  destruct (Nat.ltb_spec j n) as [_|H]; [|lia].
  apply nth_error_skipn.
Qed.

Lemma chunks_nth (n : nat) (data : list A) (count k : nat) :
  (forall i, count <= i -> window n data i = []) ->
  nth k (map (window n data) (seq 0 count)) [] = window n data k.
Proof.
  intros Hout. destruct (Nat.lt_ge_cases k count) as [Hin|Hge].
  - rewrite (nth_indep _ [] (window n data 0)) by (rewrite length_map, length_seq; lia).
    rewrite (map_nth (window n data)), seq_nth by lia. reflexivity.
  - rewrite nth_overflow by (rewrite length_map, length_seq; lia).
    symmetry. apply Hout, Hge.
Qed.

Lemma chunked_count_and_elements (data : list A) (size : Z) :
  (1 <= size)%Z ->
  exists chunks,
    chunked data size = Ok chunks
    /\ Z.of_nat (length chunks) = ((Z.of_nat (length data) + size - 1) / size)%Z
    /\ (forall k j, (Z.of_nat j < size)%Z ->
          nth_error (nth k chunks []) j = nth_error data (k * Z.to_nat size + j)).
Proof.
  intros Hsize.
  rewrite <- (Z2Nat.id size) by lia.
  set (n := Z.to_nat size). assert (Hn : 0 < n) by lia.
  destruct (range_length_covers (length data) n Hn) as [Hcover _].
  rewrite (chunked_windows A data n Hn).
  eexists. split; [reflexivity|]. split.
  - rewrite length_map, length_seq. apply range_length_ceiling, Hn.
  - intros k j Hj. rewrite Nat2Z.id.
    rewrite chunks_nth.
    + apply window_nth_error. lia.
    + intros i Hi. unfold window. rewrite skipn_all2 by nia. apply firstn_nil.
Qed.

End BatcherMore.

(** X8. For a batch size of at least 1 the number of chunks is the number
    of elements divided by the size, rounded up. *)
Theorem chunked_count (A : Type) (data : list A) (size : Z) :
  (1 <= size)%Z ->
  exists chunks,
    chunked data size = Ok chunks
    /\ Z.of_nat (length chunks) = ((Z.of_nat (length data) + size - 1) / size)%Z.
Proof.
  intros H. destruct (chunked_count_and_elements A data size H) as [chunks [Hc [Hn _]]].
  exists chunks. auto.
Qed.

Lemma chunked_count_witness :
  exists chunks,
    chunked five_rows 2 = Ok chunks
    /\ Z.of_nat (length chunks) = ((Z.of_nat (length five_rows) + 2 - 1) / 2)%Z.
Proof. apply (chunked_count payload five_rows 2). lia. Defined.

(** X9. For a batch size of at least 1, element [j] of chunk [k] is element
    [k * size + j] of the input, for every [j] below the size; past the end
    of the input there is no such element and no such chunk. *)
Theorem chunked_element (A : Type) (data : list A) (size : Z) :
  (1 <= size)%Z ->
  exists chunks,
    chunked data size = Ok chunks
    /\ (forall k j, (Z.of_nat j < size)%Z ->
          nth_error (nth k chunks []) j = nth_error data (k * Z.to_nat size + j)).
Proof.
  intros H. destruct (chunked_count_and_elements A data size H) as [chunks [Hc [_ He]]].
  exists chunks. auto.
Qed.

Lemma chunked_element_witness :
  exists chunks,
    chunked [10; 11; 12; 13; 14] 2 = Ok chunks
    /\ (forall k j, (Z.of_nat j < 2)%Z ->
          nth_error (nth k chunks []) j
          = nth_error [10; 11; 12; 13; 14] (k * Z.to_nat 2 + j)).
Proof. apply (chunked_element nat [10; 11; 12; 13; 14] 2). lia. Defined.

(** X10. A batch size that is at least the number of elements of a
    non-empty input gives exactly one chunk, the input itself. *)
Theorem chunked_single (A : Type) (data : list A) (size : Z) :
  data <> [] ->
  (Z.of_nat (length data) <= size)%Z ->
  chunked data size = Ok [data].
Proof.
  intros Hne Hsize.
  assert (Hlen : 0 < length data) by (destruct data; [contradiction | simpl; lia]).
  rewrite <- (Z2Nat.id size) by lia.
  set (n := Z.to_nat size). assert (Hn : 0 < n) by lia.
  rewrite (chunked_windows A data n Hn).
  assert (Hcount : range_length 0 (Z.of_nat (length data)) (Z.of_nat n) = 1).
  { apply Nat2Z.inj. rewrite (range_length_ceiling (length data) n Hn).
    replace (Z.of_nat (length data) + Z.of_nat n - 1)%Z
      with (Z.of_nat (length data) - 1 + 1 * Z.of_nat n)%Z by lia.
    rewrite Z.div_add, Z.div_small by lia. reflexivity. }
  rewrite Hcount. cbn [seq map]. unfold window. cbn [Nat.mul skipn].
  rewrite firstn_all2 by lia. reflexivity.
Qed.

Lemma chunked_single_witness : chunked five_rows 50 = Ok [five_rows].
Proof.
  apply (chunked_single payload five_rows 50).
  - discriminate.
  - simpl. lia.
Defined.

(** ** Upsert Executor *)

Lemma subseq_refl {A : Type} (l : list A) : subseq l l.
Proof. induction l; [apply subseq_nil | apply subseq_take; assumption]. Qed.

Lemma subseq_nil_l {A : Type} (l : list A) : subseq [] l.
Proof. induction l; [apply subseq_nil | apply subseq_skip; assumption]. Qed.

Lemma subseq_app {A : Type} (a b c d : list A) :
  subseq a b -> subseq c d -> subseq (a ++ c) (b ++ d).
Proof.
  induction 1; simpl; intros H'.
  - exact H'.
  - apply subseq_skip. auto.
  - apply subseq_take. auto.
Qed.

Lemma written_in_app (a b : trace) : written_in (a ++ b) = written_in a + written_in b.
Proof. unfold written_in. rewrite map_app, list_sum_app. reflexivity. Qed.

Lemma failures_in_app (a b : trace) : failures_in (a ++ b) = failures_in a ++ failures_in b.
Proof. apply flat_map_app. Qed.

Lemma rows_in_batches_app (a b : trace) :
  rows_in_batches (a ++ b) = rows_in_batches a ++ rows_in_batches b.
Proof. apply flat_map_app. Qed.

Lemma batch_requests_app (a b : trace) :
  batch_requests (a ++ b) = batch_requests a + batch_requests b.
Proof. unfold batch_requests. rewrite filter_app, length_app. reflexivity. Qed.

(** The trace of a batch retried row by row. *)
Lemma retried_rows_trace (table_name : pystr) (batch : list payload) :
  forall replies, length replies = length batch ->
  let t := combine (map (UpsertRow table_name) batch) replies in
  rows_in_batches t = []
  /\ batch_requests t = 0
  /\ written_in t = accepted replies
  /\ failures_in t = failure_entries batch replies
  /\ length t = length batch
  /\ subseq (map fst (failures_in t)) (map role_id batch).
Proof.
  induction batch as [|role batch IH]; intros [|r replies] Hlen; try discriminate.
  - cbv zeta. simpl. repeat split. apply subseq_nil.
  - injection Hlen as Hlen. specialize (IH replies Hlen). cbv zeta in *.
    destruct IH as [H1 [H2 [H3 [H4 [H5 H6]]]]].
    cbn [map combine].
    set (t := combine (map (UpsertRow table_name) batch) replies) in *.
    destruct r as [|e].
    + change ((UpsertRow table_name role, Done) :: t)
        with ([(UpsertRow table_name role, Done)] ++ t).
      rewrite rows_in_batches_app, batch_requests_app, written_in_app, failures_in_app,
        length_app, H1, H2, H3, H4, H5.
      repeat split. cbn [app map failure_entries]. apply subseq_skip.
      rewrite <- H4. exact H6.
    + change ((UpsertRow table_name role, Failed e) :: t)
        with ([(UpsertRow table_name role, Failed e)] ++ t).
      rewrite rows_in_batches_app, batch_requests_app, written_in_app, failures_in_app,
        length_app, H1, H2, H3, H4, H5.
      repeat split. cbn [app map failure_entries failures_in flat_map fst].
      apply subseq_take. rewrite <- H4. exact H6.
Qed.

Section ExecutorMore.

Variable Store : Type.
Variable execute : Client -> request -> Store -> reply * Store.
Variable client : Client.
Variable table_name : pystr.

Lemma upsert_batch_master (total : nat) (batch : list payload) (n : nat)
      (fails : list failure) (w : World Store) :
  exists new w',
    upsert_batch execute client table_name total batch n fails w
    = (Ok (n + written_in new, fails ++ failures_in new), w')
    /\ sent w' = sent w ++ new
    /\ rows_in_batches new = batch
    /\ batch_requests new = 1
    /\ written_in new + length (failures_in new) = length batch
    /\ 1 <= length new <= 1 + length batch
    /\ subseq (map fst (failures_in new)) (map role_id batch).
Proof.
  pose proof (upsert_batch_trace Store execute client table_name total batch n fails w) as H.
  destruct (execute client (UpsertRows table_name batch) (store w)) as [[|exc] s].
  - exists [(UpsertRows table_name batch, Done)]. eexists. rewrite H.
    assert (Hw : written_in [(UpsertRows table_name batch, Done)] = length batch)
      by (unfold written_in; simpl; lia).
    assert (Hr : rows_in_batches [(UpsertRows table_name batch, Done)] = batch)
      by (unfold rows_in_batches; simpl; apply app_nil_r).
    rewrite Hw, Hr. change (failures_in [(UpsertRows table_name batch, Done)]) with (@nil failure).
    rewrite app_nil_r. cbn [sent length map].
    repeat split; try lia.
    apply subseq_nil_l.
  - destruct H as [replies [w' [Hrun [Hlen Hsent]]]].
    destruct (retried_rows_trace table_name batch replies Hlen)
      as [H1 [H2 [H3 [H4 [H5 H6]]]]].
    exists ((UpsertRows table_name batch, Failed exc)
            :: combine (map (UpsertRow table_name) batch) replies), w'.
    rewrite Hrun.
    change ((UpsertRows table_name batch, Failed exc)
            :: combine (map (UpsertRow table_name) batch) replies)
      with ([(UpsertRows table_name batch, Failed exc)]
            ++ combine (map (UpsertRow table_name) batch) replies).
    rewrite written_in_app, failures_in_app, rows_in_batches_app, batch_requests_app,
      !length_app, H1, H2, H3, H5.
    change (written_in [(UpsertRows table_name batch, Failed exc)]) with 0.
    change (failures_in [(UpsertRows table_name batch, Failed exc)]) with (@nil failure).
    change (batch_requests [(UpsertRows table_name batch, Failed exc)]) with 1.
    assert (Hr : rows_in_batches [(UpsertRows table_name batch, Failed exc)] = batch)
      by (unfold rows_in_batches; simpl; apply app_nil_r).
    rewrite Hr, app_nil_r. cbn [app length Nat.add].
    pose proof (accepted_plus_failures batch replies Hlen) as Hsum.
    rewrite H4.
    repeat split; try lia; try assumption.
    rewrite <- H4. exact H6.
Qed.

Lemma upsert_batches_master (total : nat) (batches : list (list payload)) :
  forall (n : nat) (fails : list failure) (w : World Store),
  exists new w',
    upsert_batches execute client table_name total batches n fails w
    = (Ok (n + written_in new, fails ++ failures_in new), w')
    /\ sent w' = sent w ++ new
    /\ rows_in_batches new = concat batches
    /\ batch_requests new = length batches
    /\ written_in new + length (failures_in new) = length (concat batches)
    /\ length batches <= length new <= length batches + length (concat batches)
    /\ subseq (map fst (failures_in new)) (map role_id (concat batches)).
Proof.
  induction batches as [|batch batches IH]; intros n fails w.
  - exists [], w. cbn [upsert_batches]. unfold ret, written_in, failures_in.
    simpl. rewrite Nat.add_0_r, !app_nil_r. repeat split; try lia. constructor.
  - cbn [upsert_batches]. unfold bind.
    destruct (upsert_batch_master total batch n fails w)
      as [new1 [w1 [Hrun1 [Hs1 [Hr1 [Hb1 [Hw1 [Hl1 Hq1]]]]]]]].
    rewrite Hrun1. cbn [fst snd].
    destruct (IH (n + written_in new1) (fails ++ failures_in new1) w1)
      as [new2 [w2 [Hrun2 [Hs2 [Hr2 [Hb2 [Hw2 [Hl2 Hq2]]]]]]]].
    exists (new1 ++ new2), w2. rewrite Hrun2.
    rewrite written_in_app, failures_in_app, rows_in_batches_app, batch_requests_app,
      !length_app, map_app, Hs2, Hs1, Hr1, Hr2, Hb1, Hb2.
    cbn [concat length]. rewrite length_app, map_app.
    repeat split; try lia.
    + rewrite Nat.add_assoc, <- !app_assoc. reflexivity.
    + rewrite app_assoc. reflexivity.
    + apply subseq_app; assumption.
Qed.

Lemma upsert_roles_master (roles : list payload) (size : Z) (w : World Store) :
  (1 <= size)%Z ->
  exists new w',
    upsert_roles execute client table_name roles size w
    = (Ok (written_in new, failures_in new), w')
    /\ sent w' = sent w ++ new
    /\ rows_in_batches new = roles
    /\ Z.of_nat (batch_requests new) = ((Z.of_nat (length roles) + size - 1) / size)%Z
    /\ batch_requests new <= length new <= batch_requests new + length roles
    /\ subseq (map fst (failures_in new)) (map role_id roles).
Proof.
  intros Hsize. unfold upsert_roles.
  destruct (chunked_positive payload roles size Hsize) as [batches [Hchunks [Hcat _]]].
  destruct (chunked_count_and_elements payload roles size Hsize)
    as [batches' [Hchunks' [Hcount _]]].
  rewrite Hchunks in Hchunks'. injection Hchunks' as <-.
  rewrite Hchunks.
  destruct (upsert_batches_master (length roles) batches 0 [] w)
    as [new [w' [Hrun [Hs [Hr [Hb [_ [Hl Hq]]]]]]]].
  exists new, w'. rewrite Hrun, Hb, Hr, Hcat. rewrite Hcat in Hl, Hq.
  repeat split; try assumption; try lia.
Qed.

Lemma upsert_batches_all_done (total : nat) (batches : list (list payload)) :
  (forall c r s, fst (execute c r s) = Done) ->
  forall (n : nat) (fails : list failure) (w : World Store),
  exists w',
    upsert_batches execute client table_name total batches n fails w
    = (Ok (n + length (concat batches), fails), w')
    /\ sent w' = sent w ++ map (fun b => (UpsertRows table_name b, Done)) batches.
Proof.
  intros Hdone. induction batches as [|batch batches IH]; intros n fails w.
  - exists w. cbn [upsert_batches]. unfold ret. simpl.
    rewrite Nat.add_0_r, app_nil_r. auto.
  - cbn [upsert_batches]. unfold bind.
    pose proof (upsert_batch_trace Store execute client table_name total batch n fails w) as H.
    pose proof (Hdone client (UpsertRows table_name batch) (store w)) as Hd.
    destruct (execute client (UpsertRows table_name batch) (store w)) as [[|exc] s];
      [|discriminate].
    rewrite H. cbn [fst snd].
    match goal with |- context [upsert_batches _ _ _ _ _ ?n' ?f' ?w0] =>
      destruct (IH n' f' w0) as [w' [Hrun Hs]] end.
    exists w'. rewrite Hrun, Hs. cbn [sent concat map].
    rewrite length_app, <- app_assoc, Nat.add_assoc. split; reflexivity.
Qed.

End ExecutorMore.

(** X11. For a positive batch size, what [upsert_roles] returns can be read
    off the requests it sent: the accepted count is the number of rows of
    the whole-batch requests that succeeded plus the number of single-row
    requests that succeeded, and the failure list has one entry, [role_id]
    and error text, for each single-row request that failed, in the order
    sent. *)
Theorem upsert_roles_outcome_from_trace
        (Store : Type) (execute : Client -> request -> Store -> reply * Store)
        (client : Client) (table_name : pystr) (roles : list payload) (size : Z)
        (w : World Store) :
  (1 <= size)%Z ->
  exists new w',
    upsert_roles execute client table_name roles size w
    = (Ok (written_in new, failures_in new), w')
    /\ sent w' = sent w ++ new.
Proof.
  intros H.
  destruct (upsert_roles_master Store execute client table_name roles size w H)
    as [new [w' [Hrun [Hs _]]]].
  exists new, w'. auto.
Qed.

Lemma upsert_roles_outcome_from_trace_witness :
  exists new w',
    upsert_roles table_execute sample_client (lit "role_data") five_rows 2 empty_world
    = (Ok (written_in new, failures_in new), w')
    /\ sent w' = sent empty_world ++ new.
Proof.
  apply (upsert_roles_outcome_from_trace table_store table_execute sample_client
           (lit "role_data") five_rows 2 empty_world).
  lia.
Defined.

(** X12. For a positive batch size every row goes out in exactly one
    whole-batch request: the rows of these requests, taken in the order
    sent, are the input rows in their order, and the number of these
    requests is the number of rows divided by the batch size, rounded up. *)
Theorem upsert_roles_batch_requests
        (Store : Type) (execute : Client -> request -> Store -> reply * Store)
        (client : Client) (table_name : pystr) (roles : list payload) (size : Z)
        (w : World Store) :
  (1 <= size)%Z ->
  exists new,
    sent (snd (upsert_roles execute client table_name roles size w)) = sent w ++ new
    /\ rows_in_batches new = roles
    /\ Z.of_nat (batch_requests new) = ((Z.of_nat (length roles) + size - 1) / size)%Z.
Proof.
  intros H.
  destruct (upsert_roles_master Store execute client table_name roles size w H)
    as [new [w' [Hrun [Hs [Hr [Hb _]]]]]].
  exists new. rewrite Hrun. auto.
Qed.

Lemma upsert_roles_batch_requests_witness :
  exists new,
    sent (snd (upsert_roles table_execute sample_client (lit "role_data") five_rows 2
                            empty_world))
    = sent empty_world ++ new
    /\ rows_in_batches new = five_rows
    /\ Z.of_nat (batch_requests new) = ((Z.of_nat (length five_rows) + 2 - 1) / 2)%Z.
Proof.
  apply (upsert_roles_batch_requests table_store table_execute sample_client
           (lit "role_data") five_rows 2 empty_world).
  lia.
Defined.

(** X13. For a positive batch size the number of requests sent is at least
    the number of batches and at most the number of batches plus the number
    of rows. *)
Theorem upsert_roles_request_bound
        (Store : Type) (execute : Client -> request -> Store -> reply * Store)
        (client : Client) (table_name : pystr) (roles : list payload) (size : Z)
        (w : World Store) :
  (1 <= size)%Z ->
  let w' := snd (upsert_roles execute client table_name roles size w) in
  let batches := ((Z.of_nat (length roles) + size - 1) / size)%Z in
  (Z.of_nat (length (sent w)) + batches <= Z.of_nat (length (sent w'))
   <= Z.of_nat (length (sent w)) + batches + Z.of_nat (length roles))%Z.
Proof.
  intros H. cbv zeta.
  destruct (upsert_roles_master Store execute client table_name roles size w H)
    as [new [w' [Hrun [Hs [_ [Hb [Hl _]]]]]]].
  rewrite Hrun. cbn [snd]. rewrite Hs, length_app, <- Hb. lia.
Qed.

Lemma upsert_roles_request_bound_witness :
  let w' := snd (upsert_roles table_execute sample_client (lit "role_data") five_rows 2
                              empty_world) in
  (0 + 3 <= Z.of_nat (length (sent w')) <= 0 + 3 + 5)%Z.
Proof.
  apply (upsert_roles_request_bound table_store table_execute sample_client
           (lit "role_data") five_rows 2 empty_world).
  lia.
Defined.

(** X14. For a positive batch size the identifiers of the failure list are
    identifiers of input rows, in the order of the input: the list is the
    list of the input identifiers with some left out. *)
Theorem failures_follow_input_order
        (Store : Type) (execute : Client -> request -> Store -> reply * Store)
        (client : Client) (table_name : pystr) (roles : list payload) (size : Z)
        (w : World Store) :
  (1 <= size)%Z ->
  exists success_count failures w',
    upsert_roles execute client table_name roles size w
    = (Ok (success_count, failures), w')
    /\ subseq (map fst failures) (map role_id roles).
Proof.
  intros H.
  destruct (upsert_roles_master Store execute client table_name roles size w H)
    as [new [w' [Hrun [_ [_ [_ [_ Hq]]]]]]].
  do 3 eexists. split; [exact Hrun | exact Hq].
Qed.

Lemma failures_follow_input_order_witness :
  exists success_count failures w',
    upsert_roles table_execute sample_client (lit "role_data") five_rows 2 empty_world
    = (Ok (success_count, failures), w')
    /\ subseq (map fst failures) (map role_id five_rows).
Proof.
  apply (failures_follow_input_order table_store table_execute sample_client
           (lit "role_data") five_rows 2 empty_world).
  lia.
Defined.

(** X15. Against a store that refuses nothing, and for a positive batch
    size, [upsert_roles] accepts every row, reports no failure and sends
    exactly one request per batch, in order: no row is sent alone. *)
Theorem upsert_roles_all_accepted
        (Store : Type) (execute : Client -> request -> Store -> reply * Store)
        (client : Client) (table_name : pystr) (roles : list payload) (size : Z)
        (w : World Store) :
  (1 <= size)%Z ->
  (forall c r s, fst (execute c r s) = Done) ->
  exists batches w',
    chunked roles size = Ok batches
    /\ upsert_roles execute client table_name roles size w = (Ok (length roles, []), w')
    /\ sent w' = sent w ++ map (fun b => (UpsertRows table_name b, Done)) batches.
Proof.
  intros Hsize Hdone. unfold upsert_roles.
  destruct (chunked_positive payload roles size Hsize) as [batches [Hchunks [Hcat _]]].
  rewrite Hchunks.
  destruct (upsert_batches_all_done Store execute client table_name (length roles) batches
              Hdone 0 [] w) as [w' [Hrun Hs]].
  exists batches, w'. rewrite Hrun, Hcat. auto.
Qed.

Lemma upsert_roles_all_accepted_witness :
  exists batches w',
    chunked five_rows 2 = Ok batches
    /\ upsert_roles accept_all sample_client (lit "role_data") five_rows 2 unit_world
       = (Ok (5, []), w')
    /\ sent w' = sent unit_world
                 ++ map (fun b => (UpsertRows (lit "role_data") b, Done)) batches.
Proof.
  apply (upsert_roles_all_accepted unit accept_all sample_client (lit "role_data")
           five_rows 2 unit_world).
  - lia.
  - reflexivity.
Defined.

(** X16. With a negative batch size [upsert_roles] sends nothing and
    returns zero accepted rows and no failure, whatever rows it was given:
    the rows are dropped without a word.  With a batch size of zero it
    raises [ValueError], even for no rows. *)
Theorem upsert_roles_nonpositive_size
        (Store : Type) (execute : Client -> request -> Store -> reply * Store)
        (client : Client) (table_name : pystr) (roles : list payload) (size : Z)
        (w : World Store) :
  (size <= 0)%Z ->
  upsert_roles execute client table_name roles size w
  = if (size =? 0)%Z
    then (Raise (Exn ValueError (lit "range() arg 3 must not be zero")), w)
    else (Ok (0, []), w).
Proof.
  intros Hsize. unfold upsert_roles, chunked, py_range, range_length.
  destruct (Z.eqb_spec size 0) as [_|Hnz]; [reflexivity|].
  destruct (Z.ltb_spec 0 size) as [H|_]; [lia|].
  destruct (Z.ltb_spec (Z.of_nat (length roles)) 0) as [H|_]; [lia|].
  reflexivity.
Qed.

Lemma upsert_roles_nonpositive_size_witness :
  upsert_roles table_execute sample_client (lit "role_data") five_rows (-3) empty_world
  = (Ok (0, []), empty_world).
Proof.
  apply (upsert_roles_nonpositive_size table_store table_execute sample_client
           (lit "role_data") five_rows (-3) empty_world).
  lia.
Defined.

(** ** Migration Orchestrator *)

Section OrchestratorMore.

Variable isprintable : codepoint -> bool.
Variable Store : Type.
Variable execute : Client -> request -> Store -> reply * Store.



(** The normalization loop only prints. *)
Lemma normalize_all_prints (roles : list value) :
  forall index normalized skipped (w : World Store),
  exists lines,
    snd (normalize_all isprintable index roles normalized skipped w) = printed w lines.
Proof.
  induction roles as [|role roles IH]; intros index normalized skipped w.
  - exists []. rewrite printed_nil. reflexivity.
  - cbn [normalize_all].
    destruct (normalize_role isprintable role) as [p|exc]; [apply IH|].
    destruct (catches ValueError exc);
      [|exists []; rewrite printed_nil; reflexivity].
    destruct (role_id_hint role) as [hint|e];
      [|exists []; rewrite printed_nil; reflexivity].
    unfold bind. change (print ?l w) with (Ok tt, printed w [l]). cbv iota.
    match goal with |- context [normalize_all _ ?i _ ?n ?s ?w0] =>
      destruct (IH i n s w0) as [lines Hlines] end.
    eexists. rewrite Hlines, printed_printed. reflexivity.
Qed.

Lemma main_dry_run (args : Namespace) (f : source_file) (env : Environ) (w : World Store) :
  dry_run args = true ->
  exists lines, snd (main isprintable execute args f env w) = printed w lines.
Proof.
  intros Hdry. unfold main.
  destruct (batch_size args <=? 0)%Z.
  { exists []. rewrite printed_nil. reflexivity. }
  destruct (load_roles (file args) f) as [roles|e].
  2:{ eexists. reflexivity. }
  unfold bind at 1.
  change (print (Loaded (length roles)) w) with (Ok tt, printed w [Loaded (length roles)]).
  cbv iota. unfold bind at 1.
  destruct (normalize_all_prints roles 1 [] [] (printed w [Loaded (length roles)]))
    as [lines Hlines].
  destruct (normalize_all isprintable 1 roles [] [] (printed w [Loaded (length roles)]))
    as [[[normalized skipped]|e] w1]; cbn [snd] in Hlines; subst w1.
  - unfold bind at 1.
    match goal with |- context [print (Writable ?a ?b) ?w0] =>
      change (print (Writable a b) w0) with (Ok tt, printed w0 [Writable a b]) end.
    cbv iota. unfold bind at 1. rewrite print_all_printed, Hdry.
    unfold bind at 1.
    match goal with |- context [print DryRunNotice ?w0] =>
      change (print DryRunNotice w0) with (Ok tt, printed w0 [DryRunNotice]) end.
    cbv iota. rewrite !printed_printed.
    destruct normalized as [|first rest].
    + eexists. reflexivity.
    + unfold bind.
      match goal with |- context [print ExampleHeader ?w0] =>
        change (print ExampleHeader w0) with (Ok tt, printed w0 [ExampleHeader]) end.
      cbv iota.
      match goal with |- context [print (ExampleRow first) ?w0] =>
        change (print (ExampleRow first) w0) with (Ok tt, printed w0 [ExampleRow first]) end.
      cbn [snd]. rewrite !printed_printed. eexists. reflexivity.
  - cbn [snd]. rewrite printed_printed. eexists. reflexivity.
Qed.


End OrchestratorMore.

(** X17. In dry-run mode [main] never writes: whatever the file, the
    environment and the batch size, the store is left as it was, no request
    is sent, and the only effect is lines added to the console. *)
Theorem dry_run_never_writes
        (isprintable : codepoint -> bool) (Store : Type)
        (execute : Client -> request -> Store -> reply * Store)
        (args : Namespace) (f : source_file) (env : Environ) (w : World Store) :
  dry_run args = true ->
  let w' := snd (main isprintable execute args f env w) in
  store w' = store w /\ sent w' = sent w /\ exists lines, stdout w' = stdout w ++ lines.
Proof.
  intros Hdry. cbv zeta.
  destruct (main_dry_run isprintable Store execute args f env w Hdry) as [lines H].
  rewrite H. repeat split. exists lines. reflexivity.
Qed.

Lemma dry_run_never_writes_witness :
  let w' := snd (main isprintable_ascii table_execute dry_run_args
                      (Contents (VList [raw_plain; raw_no_id])) empty_env empty_world) in
  store w' = store empty_world /\ sent w' = sent empty_world
  /\ exists lines, stdout w' = stdout empty_world ++ lines.
Proof.
  apply (dry_run_never_writes isprintable_ascii table_store table_execute dry_run_args
           (Contents (VList [raw_plain; raw_no_id])) empty_env empty_world).
  reflexivity.
Defined.



(** ** The two text helpers *)

(** X19. [ensure_optional_str] is [ensure_text] followed by a trim, with the
    empty result turned into the absent marker: the two helpers agree on
    every object, [None] included. *)
Theorem ensure_optional_str_of_text (isprintable : codepoint -> bool) (v : value) :
  ensure_optional_str isprintable v = nonempty (strip (ensure_text isprintable v)).
Proof. destruct v; reflexivity. Qed.

(** ** The card converter and the migration *)

Lemma build_cards_shape (payload cards : list value) :
  build_cards payload = Ok cards ->
  Forall (fun r => well_shaped r = true) cards /\ length cards = length payload.
Proof.
  revert cards. induction payload as [|item payload IH]; intros cards; cbn [build_cards].
  - intros H. injection H as <-. split; [constructor | reflexivity].
  - destruct item as [| | | | | |r]; try discriminate. cbn [build_v2_card].
    destruct (build_cards payload) as [rest|e]; [|discriminate].
    intros H. injection H as <-. destruct (IH rest eq_refl) as [Hall Hlen].
    split; [constructor; [reflexivity | exact Hall] | simpl; congruence].
Qed.

(** X20. A card built by the converter normalizes exactly when the source
    role holds a truthy [role_id]; the identifier is then the string form
    of that value, trimmed.  Without a truthy [role_id] the migration
    raises the missing identifier error for the card. *)
Theorem converted_card_identity
        (isprintable : codepoint -> bool) (r : dict) (card : value) :
  build_v2_card (VDict r) = Ok card ->
  let id := dict_get r (lit "role_id") VNone in
  (truthy id = false -> normalize_role isprintable card = Raise role_id_missing)
  /\ (truthy id = true ->
      exists p, normalize_role isprintable card = Ok p
                /\ role_id p = strip (py_str isprintable id)).
Proof.
  intros H. injection H as <-. cbv zeta.
  match goal with |- context [normalize_role _ (VDict ?w)] =>
    pose proof (normalize_role_resolved isprintable w) as R;
    assert (He : extensions_role_id (VDict w) = Some (dict_get r (lit "role_id") VNone))
      by reflexivity;
    assert (Hd : data_role_id (VDict w) = None) by reflexivity
  end.
  unfold resolved_role_id in R. rewrite He, Hd in R. cbn [usable] in R.
  split; intros Hid; rewrite Hid in R; exact R.
Qed.

Lemma converted_card_identity_witness :
  exists card p,
    build_v2_card source_role = Ok card
    /\ normalize_role isprintable_ascii card = Ok p
    /\ role_id p = strip (py_str isprintable_ascii (VInt 7)).
Proof.
  eexists. 
  destruct (proj2 (converted_card_identity isprintable_ascii
                     [(lit "role_id", VInt 7); (lit "name", VStr (lit " Fox "));
                      (lit "first_sentence", VStr (lit "Hi"));
                      (lit "tag", VList [VStr (lit "a")])] _ eq_refl) eq_refl)
    as [p Hp].
  exists p. split; [reflexivity | exact Hp].
Defined.

(** X21. The row of a card built by the converter: the format columns are
    [chara_card_v2] and [2.0]; [title] is the trimmed source [name] and
    [first_mes] the trimmed [first_sentence], absent when the source value
    is falsy; [tags] is the source [tag], or the empty list when that is
    falsy; the columns [name], [description], [personality], [scenario],
    [mes_example], [post_history_instructions], [creator],
    [character_version], [creator_notes] and [avatar] are always absent,
    [alternate_greetings] is the empty list and [character_book] is
    [None]. *)
Theorem converted_card_columns
        (isprintable : codepoint -> bool) (r : dict) (card : value) (p : payload) :
  build_v2_card (VDict r) = Ok card ->
  normalize_role isprintable card = Ok p ->
  let source (key : string) := dict_get r (lit key) VNone in
  let text (key : string) :=
    if truthy (source key) then ensure_optional_str isprintable (source key) else None in
  spec p = Some (lit "chara_card_v2") /\ spec_version p = Some (lit "2.0")
  /\ title p = text "name"%string /\ first_mes p = text "first_sentence"%string
  /\ system_prompt p = text "module_1_result"%string
  /\ summary p = text "summary"%string /\ deeplink p = text "deeplink"%string
  /\ tags p = py_or (source "tag"%string) (VList [])
  /\ alternate_greetings p = VList [] /\ character_book p = VNone
  /\ name p = None /\ description p = None /\ personality p = None
  /\ scenario p = None /\ mes_example p = None /\ post_history_instructions p = None
  /\ creator p = None /\ character_version p = None /\ creator_notes p = None
  /\ avatar p = None.
Proof.
  intros H. injection H as <-. unfold normalize_role.
  match goal with |- context [if ?c then _ else _] => destruct c end; [discriminate|].
  intros H. injection H as <-. cbv zeta.
  assert (Hor : forall v, ensure_optional_str isprintable (py_or v (VStr []))
                          = if truthy v then ensure_optional_str isprintable v else None).
  { intros v. unfold py_or. destruct (truthy v); reflexivity. }
  repeat split; try reflexivity; apply Hor.
Qed.

Lemma converted_card_columns_witness :
  exists card p,
    build_v2_card source_role = Ok card
    /\ normalize_role isprintable_ascii card = Ok p
    /\ title p = Some (lit "Fox") /\ name p = None
    /\ tags p = VList [VStr (lit "a")] /\ summary p = None.
Proof.
  eexists. eexists. split; [reflexivity|]. split; [reflexivity|].
  pose proof (converted_card_columns isprintable_ascii
                [(lit "role_id", VInt 7); (lit "name", VStr (lit " Fox "));
                 (lit "first_sentence", VStr (lit "Hi"));
                 (lit "tag", VList [VStr (lit "a")])] _ _ eq_refl eq_refl) as H.
  cbv zeta in H.
  repeat split; apply H.
Defined.

(** X22. The cards that the converter writes never stop the migration at
    the normalization stage: for a source file that converts, the loop of
    [main] over the cards returns, with one row or one skipped entry for
    every source role. *)
Theorem converted_cards_normalize
        (isprintable : codepoint -> bool) (Store : Type)
        (payload : value) (cards : list value) (w : World Store) :
  convert_main payload = Ok cards ->
  exists skipped lines,
    normalize_all isprintable 1 cards [] [] w
    = (Ok (successes isprintable cards, skipped), printed w lines)
    /\ length (successes isprintable cards) + length skipped = length cards
    /\ Forall (fun x => x = unknown_skip) skipped.
Proof.
  destruct payload as [| | | | |items|]; try discriminate. cbn [convert_main].
  intros H. destruct (build_cards_shape items cards H) as [Hshape _].
  destruct (normalize_all_well_shaped isprintable Store cards Hshape 1 [] [] w)
    as [skipped [lines [Hrun [Hlen [Hall _]]]]].
  exists skipped, lines. auto.
Qed.

Lemma converted_cards_normalize_witness :
  exists cards skipped lines,
    convert_main (VList [source_role; VDict []]) = Ok cards
    /\ normalize_all isprintable_ascii 1 cards [] [] empty_world
       = (Ok (successes isprintable_ascii cards, skipped), printed empty_world lines)
    /\ length (successes isprintable_ascii cards) + length skipped = length cards
    /\ Forall (fun x => x = unknown_skip) skipped.
Proof.
  eexists.
  destruct (converted_cards_normalize isprintable_ascii table_store
              (VList [source_role; VDict []]) _ empty_world eq_refl)
    as [skipped [lines H]].
  exists skipped, lines. split; [reflexivity | exact H].
Defined.

(** ** The deeplink script *)

Lemma pystr_eqb_eq (a b : pystr) : pystr_eqb a b = true <-> a = b.
Proof.
  revert b. induction a as [|x a IH]; intros [|y b]; simpl; split;
    try discriminate; try reflexivity.
  - intros H. apply andb_prop in H as [Hx Ha].
    apply N.eqb_eq in Hx. apply IH in Ha. congruence.
  - intros H. injection H as -> ->. rewrite N.eqb_refl. apply IH. reflexivity.
Qed.

Lemma pystr_eqb_refl (a : pystr) : pystr_eqb a a = true.
Proof. apply pystr_eqb_eq. reflexivity. Qed.

Lemma lookup_set_same (d : dict) (key : pystr) (v : value) :
  lookup key (dict_set d key v) = Some v.
Proof.
  induction d as [|[k x] d IH]; simpl.
  - rewrite pystr_eqb_refl. reflexivity.
  - destruct (pystr_eqb k key) eqn:Hk; simpl; rewrite Hk; [reflexivity | exact IH].
Qed.

Lemma lookup_set_other (d : dict) (key key' : pystr) (v : value) :
  pystr_eqb key key' = false ->
  lookup key' (dict_set d key v) = lookup key' d.
Proof.
  intros Hne. induction d as [|[k x] d IH]; simpl.
  - rewrite Hne. reflexivity.
  - destruct (pystr_eqb k key) eqn:Hk; simpl.
    + apply pystr_eqb_eq in Hk. subst k. rewrite Hne. reflexivity.
    + rewrite IH. reflexivity.
Qed.

Lemma dict_get_set_same (d : dict) (key : pystr) (v default : value) :
  dict_get (dict_set d key v) key default = v.
Proof. unfold dict_get. rewrite lookup_set_same. reflexivity. Qed.

Lemma dict_get_set_other (d : dict) (key key' : pystr) (v default : value) :
  pystr_eqb key key' = false ->
  dict_get (dict_set d key v) key' default = dict_get d key' default.
Proof. intros H. unfold dict_get. rewrite lookup_set_other by exact H. reflexivity. Qed.

Lemma dict_get_found (d : dict) (key : pystr) (v : value) :
  dict_get d key VNone = v -> v <> VNone -> lookup key d = Some v.
Proof.
  unfold dict_get. destruct (lookup key d); intros <- H; [reflexivity | contradiction].
Qed.

Lemma deeplink_truthy (bot id : pystr) : truthy (VStr (deeplink_of bot id)) = true.
Proof. reflexivity. Qed.

Lemma not_differs (v : value) (s : pystr) : differs_from v s = false -> v = VStr s.
Proof.
  destruct v; try discriminate. simpl. intros H.
  apply negb_false_iff, pystr_eqb_eq in H. congruence.
Qed.

Lemma differs_from_same (s : pystr) : differs_from (VStr s) s = false.
Proof. simpl. rewrite pystr_eqb_refl. reflexivity. Qed.

Section DeeplinkFacts.

Variable isprintable : codepoint -> bool.
Variable bot : pystr.

(** What [extract_role_id_and_extensions] finds in a dict: an identifier
    with its extensions, or nothing to go by. *)
Lemma extract_dict (r : dict) :
  (exists data ext idv,
      lookup (lit "data") r = Some (VDict data)
      /\ lookup (lit "extensions") data = Some (VDict ext)
      /\ lookup (lit "role_id") ext = Some idv /\ idv <> VNone
      /\ extract_role_id_and_extensions isprintable (VDict r)
         = Ok (Some (py_str isprintable idv), Some ext)
      /\ ensure_deeplink_role isprintable bot (VDict r)
         = Ok (nested_step bot r (py_str isprintable idv) ext)
      /\ no_identifier (VDict r) = false)
  \/ (exists o,
         extract_role_id_and_extensions isprintable (VDict r) = Ok (None, o)
         /\ ensure_deeplink_role isprintable bot (VDict r) = Ok (flat_step isprintable bot r)
         /\ no_identifier (VDict r) = negb (truthy (dict_get r (lit "role_id") VNone))).
Proof.
  unfold ensure_deeplink_role, extract_role_id_and_extensions, no_identifier, py_get,
    nested_step, flat_step, dict_get.
  cbn [at_path as_dict].
  destruct (lookup (lit "data") r) as [d|] eqn:Hd.
  2:{ right. eexists. split; [reflexivity|]. split.
      - destruct (negb _); [reflexivity|]. destruct (differs_from _ _); reflexivity.
      - destruct (lookup (lit "role_id") r); reflexivity. }
  destruct d as [| | | | | |data];
    try (right; eexists; split; [reflexivity|]; split;
         [destruct (negb _); [reflexivity|]; destruct (differs_from _ _); reflexivity
         |destruct (lookup (lit "role_id") r); reflexivity]).
  cbn [at_path].
  destruct (lookup (lit "extensions") data) as [e|] eqn:He.
  2:{ right. eexists. split; [reflexivity|]. split.
      - destruct (negb _); [reflexivity|]. destruct (differs_from _ _); reflexivity.
      - destruct (lookup (lit "role_id") r); reflexivity. }
  destruct e as [| | | | | |ext];
    try (right; eexists; split; [reflexivity|]; split;
         [destruct (negb _); [reflexivity|]; destruct (differs_from _ _); reflexivity
         |destruct (lookup (lit "role_id") r); reflexivity]).
  cbn [at_path].
  destruct (lookup (lit "role_id") ext) as [idv|] eqn:Hid.
  2:{ right. eexists. split; [reflexivity|]. split.
      - destruct (negb _); [reflexivity|]. destruct (differs_from _ _); reflexivity.
      - destruct (lookup (lit "role_id") r); reflexivity. }
  destruct idv;
    try (left; exists data, ext; eexists;
         split; [first [reflexivity | exact Hd]|];
         split; [first [reflexivity | exact He]|];
         split; [first [reflexivity | exact Hid]|];
         split; [discriminate|]; split; [reflexivity|]; split;
         [destruct (differs_from _ _); reflexivity | reflexivity]).
  right. eexists. split; [reflexivity|]. split.
  - destruct (negb _); [reflexivity|]. destruct (differs_from _ _); reflexivity.
  - destruct (lookup (lit "role_id") r); reflexivity.
Qed.

End DeeplinkFacts.

Section DeeplinkSteps.

Variable isprintable : codepoint -> bool.
Variable bot : pystr.

Lemma extract_found (r data ext : dict) (idv : value) :
  lookup (lit "data") r = Some (VDict data) ->
  lookup (lit "extensions") data = Some (VDict ext) ->
  lookup (lit "role_id") ext = Some idv ->
  idv <> VNone ->
  extract_role_id_and_extensions isprintable (VDict r)
  = Ok (Some (py_str isprintable idv), Some ext)
  /\ ensure_deeplink_role isprintable bot (VDict r)
     = Ok (nested_step bot r (py_str isprintable idv) ext)
  /\ counts_as_missing isprintable (VDict r)
     = Ok (negb (truthy (dict_get ext (lit "deeplink") VNone))).
Proof.
  intros Hd He Hid Hnone.
  assert (Hext : ext <> []) by (intros ->; discriminate).
  assert (Gd : dict_get r (lit "data") VNone = VDict data)
    by (unfold dict_get; rewrite Hd; reflexivity).
  assert (Ge : dict_get data (lit "extensions") VNone = VDict ext)
    by (unfold dict_get; rewrite He; reflexivity).
  assert (Gi : dict_get ext (lit "role_id") VNone = idv)
    by (unfold dict_get; rewrite Hid; reflexivity).
  assert (Hextract : extract_role_id_and_extensions isprintable (VDict r)
                     = Ok (Some (py_str isprintable idv), Some ext)).
  { unfold extract_role_id_and_extensions, py_get. rewrite Gd, Ge, Gi.
    destruct idv; try contradiction; reflexivity. }
  split; [exact Hextract|].
  unfold counts_as_missing, ensure_deeplink_role, nested_step. rewrite Hextract.
  split.
  - destruct (differs_from _ _); reflexivity.
  - destruct ext; [contradiction | reflexivity].
Qed.

Lemma extract_after_top_set (r : dict) (v : value) :
  extract_role_id_and_extensions isprintable (VDict (dict_set r (lit "deeplink") v))
  = extract_role_id_and_extensions isprintable (VDict r).
Proof.
  unfold extract_role_id_and_extensions, py_get.
  rewrite dict_get_set_other by reflexivity. reflexivity.
Qed.

Lemma flat_of_extract (r : dict) (o : option dict) :
  extract_role_id_and_extensions isprintable (VDict r) = Ok (None, o) ->
  ensure_deeplink_role isprintable bot (VDict r) = Ok (flat_step isprintable bot r)
  /\ counts_as_missing isprintable (VDict r) = Ok (negb (dict_has r (lit "deeplink"))).
Proof.
  intros H. unfold ensure_deeplink_role, counts_as_missing, flat_step. rewrite H.
  cbn [as_dict]. split; [|reflexivity].
  destruct (negb _); [reflexivity|]. destruct (differs_from _ _); reflexivity.
Qed.

Lemma no_identifier_after_top_set (r : dict) (v : value) :
  at_path (VDict (dict_set r (lit "deeplink") v)) [lit "data"; lit "extensions"; lit "role_id"]
  = at_path (VDict r) [lit "data"; lit "extensions"; lit "role_id"].
Proof. cbn [at_path]. rewrite lookup_set_other by reflexivity. reflexivity. Qed.

(** One turn of the loop of [ensure_deeplink_field]. *)
Lemma ensure_role_facts (role role' : value) (b : bool) :
  ensure_deeplink_role isprintable bot role = Ok (role', b) ->
  ensure_deeplink_role isprintable bot role' = Ok (role', false)
  /\ counts_as_missing isprintable role' = Ok (left_without_deeplink role)
  /\ (forall id ext,
        extract_role_id_and_extensions isprintable role = Ok (Some id, Some ext) ->
        at_path role' [lit "data"; lit "extensions"; lit "deeplink"]
        = Some (VStr (deeplink_of bot id))
        /\ exists ext',
            extract_role_id_and_extensions isprintable role' = Ok (Some id, Some ext')).
Proof.
  destruct role as [| | | | | |r]; try discriminate.
  unfold left_without_deeplink.
  destruct (extract_dict isprintable bot r)
    as [[data [ext [idv [Hd [He [Hid [Hnone [Hex [Hstep Hno]]]]]]]]] | [o [Hex [Hstep Hno]]]];
    rewrite Hstep, Hno; intros H; injection H as H.
  - (* the identifier is in the extensions *)
    cbn [andb]. unfold nested_step in H.
    set (id := py_str isprintable idv) in *.
    set (dl := deeplink_of bot id) in *.
    destruct (differs_from (dict_get ext (lit "deeplink") VNone) dl) eqn:Hdiff;
      injection H as <- <-.
    + unfold with_extensions. rewrite Hd.
      set (ext' := dict_set ext (lit "deeplink") (VStr dl)).
      set (data' := dict_set data (lit "extensions") (VDict ext')).
      set (r' := dict_set r (lit "data") (VDict data')).
      assert (Hd' : lookup (lit "data") r' = Some (VDict data')) by apply lookup_set_same.
      assert (He' : lookup (lit "extensions") data' = Some (VDict ext'))
        by apply lookup_set_same.
      assert (Hid' : lookup (lit "role_id") ext' = Some idv)
        by (unfold ext'; rewrite lookup_set_other by reflexivity; exact Hid).
      assert (Hdl' : dict_get ext' (lit "deeplink") VNone = VStr dl)
        by apply dict_get_set_same.
      destruct (extract_found r' data' ext' idv Hd' He' Hid' Hnone) as [Hex' [Hstep' Hc']].
      rewrite Hstep', Hc'. unfold nested_step. fold id. fold dl.
      rewrite Hdl', differs_from_same.
      split; [reflexivity|]. split; [reflexivity|].
      intros id0 ext0 H0. rewrite Hex in H0. injection H0 as <- <-.
      split; [|exists ext'; exact Hex'].
      cbn [at_path]. rewrite Hd', He'. unfold ext'. rewrite lookup_set_same. reflexivity.
    + apply not_differs in Hdiff.
      destruct (extract_found r data ext idv Hd He Hid Hnone) as [_ [Hstep' Hc']].
      rewrite Hstep', Hc'. unfold nested_step. fold id. fold dl.
      rewrite Hdiff, differs_from_same.
      split; [reflexivity|]. split; [reflexivity|].
      intros id0 ext0 H0. rewrite Hex in H0. injection H0 as <- <-.
      split; [|exists ext; exact Hex].
      cbn [at_path]. rewrite Hd, He.
      rewrite (dict_get_found ext (lit "deeplink") (VStr dl) Hdiff ltac:(discriminate)).
      reflexivity.
  - (* the identifier, if any, is at the top *)
    unfold flat_step in H.
    destruct (truthy (dict_get r (lit "role_id") VNone)) eqn:Hid; cbn [negb andb] in *.
    + set (dl := deeplink_of bot (py_str isprintable (dict_get r (lit "role_id") VNone)))
        in *.
      destruct (differs_from (dict_get r (lit "deeplink") VNone) dl) eqn:Hdiff;
        injection H as <- <-.
      * assert (Hex' : extract_role_id_and_extensions isprintable
                         (VDict (dict_set r (lit "deeplink") (VStr dl))) = Ok (None, o))
          by (rewrite extract_after_top_set; exact Hex).
        destruct (flat_of_extract _ o Hex') as [Hstep' Hc'].
        rewrite Hstep', Hc'. unfold flat_step, dict_has.
        rewrite dict_get_set_other by reflexivity. rewrite Hid. cbn [negb].
        fold dl. rewrite dict_get_set_same, differs_from_same, lookup_set_same.
        split; [reflexivity|]. split; [reflexivity|].
        intros id0 ext0 H0. rewrite Hex in H0. discriminate.
      * apply not_differs in Hdiff.
        destruct (flat_of_extract r o Hex) as [Hstep' Hc'].
        rewrite Hstep', Hc'. unfold flat_step, dict_has. rewrite Hid. cbn [negb].
        fold dl. rewrite Hdiff, differs_from_same.
        rewrite (dict_get_found r (lit "deeplink") (VStr dl) Hdiff ltac:(discriminate)).
        split; [reflexivity|]. split; [reflexivity|].
        intros id0 ext0 H0. rewrite Hex in H0. discriminate.
    + injection H as <- <-.
      destruct (flat_of_extract r o Hex) as [Hstep' Hc'].
      rewrite Hstep', Hc'. unfold flat_step. rewrite Hid. cbn [negb].
      split; [reflexivity|]. split; [reflexivity|].
      intros id0 ext0 H0. rewrite Hex in H0. discriminate.
Qed.

Lemma ensure_loop_facts (roles : list value) :
  forall (n : nat) (roles' : list value) (n' : nat),
  ensure_deeplink_loop isprintable bot roles n = Ok (roles', n') ->
  (forall m, ensure_deeplink_loop isprintable bot roles' m = Ok (roles', m))
  /\ (forall m, count_roles_loop isprintable roles' m
                = Ok (m + length (filter left_without_deeplink roles)))
  /\ Forall2 (fun role role' =>
                forall id ext,
                  extract_role_id_and_extensions isprintable role = Ok (Some id, Some ext) ->
                  at_path role' [lit "data"; lit "extensions"; lit "deeplink"]
                  = Some (VStr (deeplink_of bot id))
                  /\ exists ext',
                      extract_role_id_and_extensions isprintable role'
                      = Ok (Some id, Some ext'))
             roles roles'
  /\ n <= n' <= n + length roles.
Proof.
  induction roles as [|role roles IH]; intros n roles' n'; cbn [ensure_deeplink_loop].
  - intros H. injection H as <- <-. repeat split; try constructor; simpl; try lia.
    intros m. simpl. rewrite Nat.add_0_r. reflexivity.
  - destruct (ensure_deeplink_role isprintable bot role) as [[role1 b]|e] eqn:Hstep;
      [|discriminate].
    destruct (ensure_deeplink_loop isprintable bot roles (if b then n + 1 else n))
      as [[rest k]|e] eqn:Hrest; [|discriminate].
    intros H. injection H as <- <-.
    destruct (ensure_role_facts role role1 b Hstep) as [Hagain [Hcount Hlink]].
    destruct (IH _ _ _ Hrest) as [IHagain [IHcount [IHlink IHbound]]].
    repeat split.
    + intros m. cbn [ensure_deeplink_loop]. rewrite Hagain, IHagain. reflexivity.
    + intros m. cbn [count_roles_loop filter]. rewrite Hcount.
      destruct (left_without_deeplink role); rewrite IHcount; cbn [length]; f_equal; lia.
    + constructor; assumption.
    + destruct b; lia.
    + destruct b; simpl; lia.
Qed.

Lemma ensure_loop_total (roles : list value) :
  forall n,
    (exists roles' n', ensure_deeplink_loop isprintable bot roles n = Ok (roles', n'))
    <-> Forall (fun role => exists r, role = VDict r) roles.
Proof.
  induction roles as [|role roles IH]; intros n; cbn [ensure_deeplink_loop].
  - split; [constructor | intros _; do 2 eexists; reflexivity].
  - split.
    + intros [roles' [n' H]].
      destruct (ensure_deeplink_role isprintable bot role) as [[role1 b]|e] eqn:Hstep;
        [|discriminate].
      destruct (ensure_deeplink_loop isprintable bot roles (if b then n + 1 else n))
        as [[rest k]|e] eqn:Hrest; [|discriminate].
      constructor.
      * destruct role; try discriminate. eexists. reflexivity.
      * apply (IH (if b then n + 1 else n)). do 2 eexists. exact Hrest.
    + intros H. inversion H as [|x l [r ->] Hrest]; subst.
      destruct (extract_dict isprintable bot r)
        as [[data [ext [idv [_ [_ [_ [_ [_ [Hstep _]]]]]]]]] | [o [_ [Hstep _]]]];
        rewrite Hstep.
      * destruct (nested_step bot r (py_str isprintable idv) ext) as [role1 b].
        destruct (proj2 (IH (if b then n + 1 else n)) Hrest) as [rest [k Hk]].
        rewrite Hk. do 2 eexists. reflexivity.
      * destruct (flat_step isprintable bot r) as [role1 b].
        destruct (proj2 (IH (if b then n + 1 else n)) Hrest) as [rest [k Hk]].
        rewrite Hk. do 2 eexists. reflexivity.
Qed.

End DeeplinkSteps.

(** X23. [ensure_deeplink_field] is idempotent: on the roles as a first
    call leaves them, a second call with the same bot name changes nothing
    and reports zero updates. *)
Theorem ensure_deeplink_idempotent
        (isprintable : codepoint -> bool) (bot : pystr)
        (roles roles' : list value) (n : nat) :
  ensure_deeplink_field isprintable roles bot = Ok (roles', n) ->
  ensure_deeplink_field isprintable roles' bot = Ok (roles', 0).
Proof.
  unfold ensure_deeplink_field. intros H.
  apply (ensure_loop_facts isprintable bot roles 0 roles' n H).
Qed.

Lemma ensure_deeplink_idempotent_witness :
  exists roles' n,
    ensure_deeplink_field isprintable_ascii [flat_role; linked_card; VDict []; raw_plain]
                          (lit "bot") = Ok (roles', n)
    /\ n = 3
    /\ ensure_deeplink_field isprintable_ascii roles' (lit "bot") = Ok (roles', 0).
Proof.
  do 2 eexists. split; [reflexivity|]. split; [reflexivity|].
  apply (ensure_deeplink_idempotent isprintable_ascii (lit "bot")
           [flat_role; linked_card; VDict []; raw_plain] _ 3).
  reflexivity.
Defined.

(** X24. After [ensure_deeplink_field], the roles that
    [count_roles_without_deeplink] still counts are exactly the roles that
    had no identifier to build a link from (no non-null
    [data.extensions.role_id] and no truthy top-level [role_id]) and no
    top-level [deeplink] key. *)
Theorem count_after_ensure_deeplink
        (isprintable : codepoint -> bool) (bot : pystr)
        (roles roles' : list value) (n : nat) :
  ensure_deeplink_field isprintable roles bot = Ok (roles', n) ->
  count_roles_without_deeplink isprintable roles'
  = Ok (length (filter left_without_deeplink roles)).
Proof.
  unfold ensure_deeplink_field, count_roles_without_deeplink. intros H.
  destruct (ensure_loop_facts isprintable bot roles 0 roles' n H) as [_ [Hcount _]].
  apply (Hcount 0).
Qed.

Lemma count_after_ensure_deeplink_witness :
  exists roles' n,
    ensure_deeplink_field isprintable_ascii [flat_role; linked_card; VDict []; raw_plain]
                          (lit "bot") = Ok (roles', n)
    /\ count_roles_without_deeplink isprintable_ascii roles' = Ok 1.
Proof.
  do 2 eexists. split; [reflexivity|].
  apply (count_after_ensure_deeplink isprintable_ascii (lit "bot")
           [flat_role; linked_card; VDict []; raw_plain] _ 3).
  reflexivity.
Defined.

(** X25. After [ensure_deeplink_field], every role in which
    [extract_role_id_and_extensions] found an identifier holds, at
    [data.extensions.deeplink], the link
    [https://t.me/<bot>?start=role_<identifier>], and the identifier found
    in it is the same as before. *)
Theorem ensure_deeplink_sets_link
        (isprintable : codepoint -> bool) (bot : pystr)
        (roles roles' : list value) (n : nat) :
  ensure_deeplink_field isprintable roles bot = Ok (roles', n) ->
  Forall2 (fun role role' =>
             forall id ext,
               extract_role_id_and_extensions isprintable role = Ok (Some id, Some ext) ->
               at_path role' [lit "data"; lit "extensions"; lit "deeplink"]
               = Some (VStr (deeplink_of bot id))
               /\ exists ext',
                   extract_role_id_and_extensions isprintable role'
                   = Ok (Some id, Some ext'))
          roles roles'.
Proof.
  unfold ensure_deeplink_field. intros H.
  apply (ensure_loop_facts isprintable bot roles 0 roles' n H).
Qed.

Lemma ensure_deeplink_sets_link_witness :
  exists roles' n,
    ensure_deeplink_field isprintable_ascii [linked_card] (lit "bot") = Ok (roles', n)
    /\ Forall2 (fun role role' =>
                  forall id ext,
                    extract_role_id_and_extensions isprintable_ascii role
                    = Ok (Some id, Some ext) ->
                    at_path role' [lit "data"; lit "extensions"; lit "deeplink"]
                    = Some (VStr (deeplink_of (lit "bot") id))
                    /\ exists ext',
                        extract_role_id_and_extensions isprintable_ascii role'
                        = Ok (Some id, Some ext'))
               [linked_card] roles'.
Proof.
  do 2 eexists. split; [reflexivity|].
  apply (ensure_deeplink_sets_link isprintable_ascii (lit "bot") [linked_card] _ 1).
  reflexivity.
Defined.

(** X26. [ensure_deeplink_field] returns exactly when every role is an
    object (a role of any other kind raises, [get] being called on it);
    when it returns, the list has as many roles as before and the number of
    updates is at most that number. *)
Theorem ensure_deeplink_returns
        (isprintable : codepoint -> bool) (bot : pystr) (roles : list value) :
  ((exists roles' n, ensure_deeplink_field isprintable roles bot = Ok (roles', n))
   <-> Forall (fun role => exists r, role = VDict r) roles)
  /\ (forall roles' n,
        ensure_deeplink_field isprintable roles bot = Ok (roles', n) ->
        length roles' = length roles /\ n <= length roles).
Proof.
  unfold ensure_deeplink_field. split.
  - apply ensure_loop_total.
  - intros roles' n H.
    destruct (ensure_loop_facts isprintable bot roles 0 roles' n H) as [_ [_ [Hall Hn]]].
    split; [|lia]. clear H Hn. induction Hall; simpl; congruence.
Qed.

Lemma ensure_deeplink_returns_witness :
  exists roles' n,
    ensure_deeplink_field isprintable_ascii [flat_role; linked_card] (lit "bot")
    = Ok (roles', n).
Proof.
  apply (proj2 (proj1 (ensure_deeplink_returns isprintable_ascii (lit "bot")
                         [flat_role; linked_card]))).
  repeat constructor; eexists; reflexivity.
Defined.
